(** * food-ordering-backend: the auth gate and the table-status endpoint

    A shallow embedding of [server.py]: the [token_required] decorator and the
    [update_table_status] view behind [PUT /api/tables/<int:table_number>/status],
    followed by the properties of the endpoint contract.

    Python values are modelled by [json]; Flask's ambient [request], the
    PostgreSQL session behind psycopg2 and the process' standard output form the
    [world] threaded through a small state-and-exception monad. *)

From Stdlib Require Import String Ascii List ZArith Bool Lia DecimalString.
Import ListNotations.

#[local] Set Warnings "-register-all".

Open Scope string_scope.
Open Scope list_scope.

(** ** Python values *)

Module Py.

(** What [request.get_json()] and [jwt.decode] hand to the program: JSON data
    as Python objects.  [JNull] is [None]; a [dict] keeps its items in
    insertion order, keys being unique.  (JSON floats are left out.) *)
Inductive json : Type :=
| JNull
| JBool (b : bool)
| JInt (n : Z)
| JStr (s : string)
| JArr (xs : list json)
| JObj (items : list (string * json)).

Definition dict := list (string * json).

(** [bool(v)]: what [if not v] tests. *)
Definition truthy (v : json) : bool :=
  match v with
  | JNull => false
  | JBool b => b
  | JInt n => negb (n =? 0)%Z
  | JStr s => negb (s =? "")
  | JArr xs => match xs with [] => false | _ :: _ => true end
  | JObj items => match items with [] => false | _ :: _ => true end
  end.

(** [v == s] for a [str] literal [s]. *)
Definition eq_str (v : json) (s : string) : bool :=
  match v with
  | JStr t => (t =? s)
  | _ => false
  end.

(** [v in [s1, ..., sn]] for a list of [str] literals. *)
Definition py_in (v : json) (l : list string) : bool :=
  existsb (eq_str v) l.

(** Item lookup in a [dict]. *)
Fixpoint lookup (k : string) (d : dict) : option json :=
  match d with
  | [] => None
  | (k', v) :: d' => if (k' =? k) then Some v else lookup k d'
  end.

(** [s.split(" ")]: split at every single space, keeping empty parts. *)
Fixpoint split_space (s : string) : list string :=
  match s with
  | EmptyString => [""]
  | String c s' =>
      if Ascii.eqb c " "%char then "" :: split_space s'
      else match split_space s' with
           | hd :: tl => String c hd :: tl
           | [] => [String c ""]
           end
  end.

(** [sep.join(l)]. *)
Definition join (sep : string) (l : list string) : string :=
  String.concat sep l.

(** [str(n)] for an [int]. *)
Definition str_of_int (n : Z) : string :=
  NilZero.string_of_int (Z.to_int n).

(** [f"{v}"] for a scalar [v]; the program formats only [str] and [int]
    values, so containers are not rendered. *)
Definition format (v : json) : string :=
  match v with
  | JNull => "None"
  | JBool true => "True"
  | JBool false => "False"
  | JInt n => str_of_int n
  | JStr s => s
  | JArr _ => "[...]"
  | JObj _ => "{...}"
  end.

End Py.

Import Py.

(** ** Exceptions *)

(** The PyJWT exceptions; every one of them is an [InvalidTokenError], and
    [ExpiredSignatureError] is the subclass raised for a verified signature
    with a passed [exp]. *)
Inductive jwt_exception : Type :=
| ExpiredSignatureError
| DecodeError
| InvalidSignatureError
| InvalidAlgorithmError
| ImmatureSignatureError
| InvalidTokenError.

Inductive exn : Type :=
| IndexError
| KeyError (key : string)
| AttributeError (what : string)
| JwtError (e : jwt_exception)
| Psycopg2Error (detail : string)
| OtherException (detail : string).

(** [str(e)], as the f-strings of the [except] clauses print it. *)
Definition exn_text (e : exn) : string :=
  match e with
  | IndexError => "list index out of range"
  | KeyError key => "'" ++ key ++ "'"
  | AttributeError what => "object has no attribute '" ++ what ++ "'"
  | JwtError ExpiredSignatureError => "Signature has expired"
  | JwtError _ => "Invalid token"
  | Psycopg2Error detail => detail
  | OtherException detail => detail
  end.

(** [isinstance(e, psycopg2.Error)] *)
Definition is_psycopg2_error (e : exn) : bool :=
  match e with
  | Psycopg2Error _ => true
  | _ => false
  end.

(** ** The world a request runs in *)

(** A row of [tables]: [table_number SERIAL PRIMARY KEY],
    [status VARCHAR(50) DEFAULT 'available'] (nullable). *)
Record row : Type := mkRow {
  table_number : Z;
  status : option string
}.

(** The calls made on the connection and its cursor. *)
Inductive db_op : Type :=
| OpConnect
| OpCursor
| OpExecute
| OpFetchone
| OpCommit
| OpRollback
| OpCloseCursor
| OpCloseConnection.

(** The store: the committed rows of [tables], the view of the transaction of
    the open connection (if any), the result set held by the cursor, and the
    calls that reached the driver, oldest first. *)
Record database : Type := mkDatabase {
  tables : list row;
  session : option (list row);
  result_set : list row;
  calls : list db_op
}.

(** Flask's [request]:  the value of the [Authorization] header if the header
    is there, the parsed JSON body, and the two attributes the gate attaches. *)
Record request : Type := mkRequest {
  authorization : option string;
  get_json : json;
  user_id : option json;
  user_role : option json
}.

(** The locals [conn] and [cur] of the view: [true] once bound to an object. *)
Record locals : Type := mkLocals {
  conn : bool;
  cur : bool
}.

Record world : Type := mkWorld {
  req : request;
  db : database;
  frame : locals;
  stdout : list string
}.

(** ** State and exceptions *)

Definition M (A : Type) : Type := world -> (exn + A) * world.

Definition ret {A} (a : A) : M A := fun w => (inr a, w).

Definition raise {A} (e : exn) : M A := fun w => (inl e, w).

Definition bind {A B} (m : M A) (k : A -> M B) : M B :=
  fun w =>
    match m w with
    | (inr a, w') => k a w'
    | (inl e, w') => (inl e, w')
    end.

Declare Scope py_scope.
Delimit Scope py_scope with py.
Notation "x <- m ;; k" := (bind m (fun x => k))
  (at level 61, m at next level, right associativity) : py_scope.
Notation "m ;; k" := (bind m (fun _ => k))
  (at level 61, right associativity) : py_scope.
Open Scope py_scope.

(** [try: body  except ...: handlers  finally: final].  [handlers e] is the
    clause that catches [e], if one does.  An exception raised inside a clause
    is not caught by its siblings; [final] runs on every path, and an
    exception it raises replaces the pending result. *)
Definition try_except_finally {A}
    (body : M A) (handlers : exn -> option (M A)) (final : M unit) : M A :=
  fun w =>
    let (r, w1) :=
      match body w with
      | (inr a, w1) => (inr a, w1)
      | (inl e, w1) =>
          match handlers e with
          | Some h => h w1
          | None => (inl e, w1)
          end
      end in
    match final w1 with
    | (inr _, w2) => (r, w2)
    | (inl e', w2) => (inl e', w2)
    end.

Definition try_except {A} (body : M A) (handlers : exn -> option (M A)) : M A :=
  try_except_finally body handlers (ret tt).

(** A response: [jsonify(body), code]. *)
Definition response : Type := (json * Z)%type.

Definition jsonify (items : dict) : json := JObj items.

Definition print (line : string) : M unit :=
  fun w => (inr tt, mkWorld (req w) (db w) (frame w) (stdout w ++ [line])).

Definition get_req : M request := fun w => (inr (req w), w).

Definition set_req (r : request) : M unit :=
  fun w => (inr tt, mkWorld r (db w) (frame w) (stdout w)).

Definition get_db : M database := fun w => (inr (db w), w).

Definition set_db (d : database) : M unit :=
  fun w => (inr tt, mkWorld (req w) d (frame w) (stdout w)).

Definition get_frame : M locals := fun w => (inr (frame w), w).

Definition set_frame (l : locals) : M unit :=
  fun w => (inr tt, mkWorld (req w) (db w) l (stdout w)).

(** [d[k]] *)
Definition getitem (d : dict) (k : string) : M json :=
  match lookup k d with
  | Some v => ret v
  | None => raise (KeyError k)
  end.

(** [data.get(k)]: only a [dict] has the method; a missing key gives [None]. *)
Definition get_method (data : json) (k : string) : M json :=
  match data with
  | JObj items =>
      ret (match lookup k items with Some v => v | None => JNull end)
  | _ => raise (AttributeError "get")
  end.

(** ** SQL *)

(** [UPDATE tables SET status = %s WHERE table_number = %s] on a view. *)
Definition sql_update_status (new_status : string) (n : Z) (view : list row)
  : list row :=
  map (fun r => if (table_number r =? n)%Z
                then mkRow (table_number r) (Some new_status)
                else r) view.

(** [... RETURNING *]: the rows the statement wrote, as they are afterwards. *)
Definition sql_returning (n : Z) (view : list row) : list row :=
  filter (fun r => (table_number r =? n)%Z) view.

Definition json_of_status (s : option string) : json :=
  match s with
  | Some t => JStr t
  | None => JNull
  end.

Section Server.

(** [os.environ.get] *)
Variable environ : string -> option string.

(** [jwt.decode(token, key, algorithms=...)] of PyJWT: the claims of the token,
    or the exception raised. *)
Variable jwt_decode :
  string -> string -> list string -> jwt_exception + dict.

(** The failures of the store: the exception a driver call raises, if it
    raises one. *)
Variable faults : db_op -> option exn.

Definition SECRET_KEY : string :=
  match environ "SECRET_KEY" with
  | Some k => k
  | None => "your_super_secret_key"
  end.

(** *** The driver *)

(** Every call is recorded, then fails if the store makes it fail. *)
Definition driver (op : db_op) : M unit :=
  d <- get_db ;;
  set_db (mkDatabase (tables d) (session d) (result_set d) (calls d ++ [op])) ;;
  match faults op with
  | Some e => raise e
  | None => ret tt
  end.

(** [psycopg2.connect(...)]: a new session, which sees the committed rows. *)
Definition get_db_connection : M unit :=
  driver OpConnect ;;
  d <- get_db ;;
  set_db (mkDatabase (tables d) (Some (tables d)) [] (calls d)).

(** [conn.cursor()] *)
Definition cursor : M unit := driver OpCursor.

(** [cur.execute(sql.SQL("UPDATE tables SET status = %s WHERE table_number = %s
    RETURNING *"), (new_status, table_number))].  The validation of the view
    lets only a [str] through; any other value is not adapted. *)
Definition execute_update (new_status : json) (n : Z) : M unit :=
  driver OpExecute ;;
  d <- get_db ;;
  match new_status, session d with
  | JStr s, Some view =>
      let view' := sql_update_status s n view in
      set_db (mkDatabase (tables d) (Some view') (sql_returning n view') (calls d))
  | JStr _, None => raise (Psycopg2Error "connection already closed")
  | _, _ => raise (Psycopg2Error "cannot adapt the parameter")
  end.

(** [cur.fetchone()] *)
Definition fetchone : M (option row) :=
  driver OpFetchone ;;
  d <- get_db ;;
  match result_set d with
  | [] => ret None
  | r :: rest =>
      set_db (mkDatabase (tables d) (session d) rest (calls d)) ;;
      ret (Some r)
  end.

(** [conn.commit()]: the view of the transaction becomes the committed rows. *)
Definition commit : M unit :=
  driver OpCommit ;;
  d <- get_db ;;
  match session d with
  | Some view => set_db (mkDatabase view (Some view) (result_set d) (calls d))
  | None => raise (Psycopg2Error "connection already closed")
  end.

(** [conn.rollback()]: [conn] is still [None] when the connection was never
    obtained, and [None] has no such method. *)
Definition rollback : M unit :=
  l <- get_frame ;;
  if conn l then
    driver OpRollback ;;
    d <- get_db ;;
    set_db (mkDatabase (tables d) (Some (tables d)) [] (calls d))
  else raise (AttributeError "rollback").

(** [cur.close()] *)
Definition close_cursor : M unit :=
  driver OpCloseCursor ;;
  d <- get_db ;;
  set_db (mkDatabase (tables d) (session d) [] (calls d)).

(** [conn.close()]: what was not committed is gone with the session. *)
Definition close_connection : M unit :=
  driver OpCloseConnection ;;
  d <- get_db ;;
  set_db (mkDatabase (tables d) None [] (calls d)).

(** *** The auth gate *)

Definition token_missing : response :=
  (jsonify [("message", JStr "Token is missing!")], 401%Z).

Definition token_expired : response :=
  (jsonify [("message", JStr "Token has expired!")], 401%Z).

Definition token_invalid : response :=
  (jsonify [("message", JStr "Invalid Token!")], 401%Z).

(** [bool(token)] for [token] either [None] or a [str]. *)
Definition token_truthy (token : option string) : bool :=
  match token with
  | Some t => negb (t =? "")
  | None => false
  end.

(** [request.headers['Authorization'].split(" ")[1]] if the header is there. *)
Definition read_token : M (option string) :=
  r <- get_req ;;
  match authorization r with
  | Some h =>
      match nth_error (split_space h) 1 with
      | Some t => ret (Some t)
      | None => raise IndexError
      end
  | None => ret None
  end.

(** The [try] of the gate; [Some resp] is a [return resp] from a clause, [None]
    leaves the statement at its end. *)
Definition verify_token (token : string) : M (option response) :=
  try_except
    (data <- match jwt_decode token SECRET_KEY ["HS256"] with
             | inr d => ret d
             | inl e => raise (JwtError e)
             end ;;
     uid <- getitem data "user_id" ;;
     r <- get_req ;;
     set_req (mkRequest (authorization r) (get_json r) (Some uid) (user_role r)) ;;
     role <- getitem data "role" ;;
     r <- get_req ;;
     set_req (mkRequest (authorization r) (get_json r) (user_id r) (Some role)) ;;
     ret None)
    (fun e =>
       match e with
       | JwtError ExpiredSignatureError => Some (ret (Some token_expired))
       | JwtError _ => Some (ret (Some token_invalid))
       | _ => None
       end).

Definition decorated {A} (f : A -> M response) (args : A) : M response :=
  token <- read_token ;;
  if negb (token_truthy token) then ret token_missing
  else
    early <- verify_token (match token with Some t => t | None => "" end) ;;
    match early with
    | Some resp => ret resp
    | None => f args
    end.

Definition token_required {A} (f : A -> M response) : A -> M response :=
  decorated f.

(** *** The table-status view *)

Definition allowed_roles : list string := ["waiter"; "admin"].

Definition allowed_statuses : list string :=
  ["available"; "occupied"; "cleaning"; "reserved"].

Definition unauthorized : response :=
  (jsonify [("error",
             JStr "Unauthorized: Only waiters or admins can update table status")],
   403%Z).

Definition status_required : response :=
  (jsonify [("error", JStr "Status is required")], 400%Z).

Definition invalid_status : response :=
  (jsonify [("error",
             JStr ("Invalid status. Allowed statuses are: "
                   ++ join ", " allowed_statuses))],
   400%Z).

Definition updated (n : Z) (new_status : json) (r : row) : response :=
  (jsonify [("message",
             JStr ("Table " ++ str_of_int n ++ " status updated to "
                   ++ format new_status));
            ("table_number", JInt (table_number r));
            ("status", json_of_status (status r))],
   200%Z).

Definition not_found (n : Z) : response :=
  (jsonify [("error", JStr ("Table " ++ str_of_int n ++ " not found"))], 404%Z).

Definition database_error : response :=
  (jsonify [("error",
             JStr "Failed to update table status due to a database error.")],
   500%Z).

Definition unexpected_error : response :=
  (jsonify [("error", JStr "An unexpected error occurred.")], 500%Z).

(** [request.user_role] *)
Definition get_user_role : M json :=
  r <- get_req ;;
  match user_role r with
  | Some v => ret v
  | None => raise (AttributeError "user_role")
  end.

(** The [finally] clause. *)
Definition release : M unit :=
  l <- get_frame ;;
  (if cur l then close_cursor else ret tt) ;;
  l <- get_frame ;;
  (if conn l then close_connection else ret tt).

(** The body of [update_table_status], before decoration. *)
Definition update_table_status_view (n : Z) : M response :=
  role <- get_user_role ;;
  if negb (py_in role allowed_roles) then ret unauthorized
  else
    r <- get_req ;;
    new_status <- get_method (get_json r) "status" ;;
    if negb (truthy new_status) then ret status_required
    else if negb (py_in new_status allowed_statuses) then ret invalid_status
    else
      set_frame (mkLocals false false) ;;
      try_except_finally
        (get_db_connection ;;
         l <- get_frame ;; set_frame (mkLocals true (cur l)) ;;
         cursor ;;
         l <- get_frame ;; set_frame (mkLocals (conn l) true) ;;
         execute_update new_status n ;;
         updated_table <- fetchone ;;
         commit ;;
         match updated_table with
         | Some t => ret (updated n new_status t)
         | None => ret (not_found n)
         end)
        (fun e =>
           if is_psycopg2_error e then
             Some (rollback ;;
                   print ("Database error: " ++ exn_text e) ;;
                   ret database_error)
           else
             Some (print ("An unexpected error occurred: " ++ exn_text e) ;;
                   ret unexpected_error))
        release.

(** [@app.route(...) @token_required def update_table_status(table_number)] *)
Definition update_table_status : Z -> M response :=
  token_required update_table_status_view.

(** *** Notions the contract is phrased in *)

(** The request carries, as the second space-separated part of its
    [Authorization] header, a token that verifies with claims [payload]. *)
Definition presents (w : world) (payload : dict) : Prop :=
  exists h tok,
    authorization (req w) = Some h /\
    nth_error (split_space h) 1 = Some tok /\
    tok <> "" /\
    jwt_decode tok SECRET_KEY ["HS256"] = inr payload.

(** No driver call fails. *)
Definition healthy : Prop := forall op, faults op = None.

End Server.

(** The world as the gate hands it to the view: the two claims attached to
    the request, nothing else touched. *)
Definition attach (uid role : json) (w : world) : world :=
  mkWorld (mkRequest (authorization (req w)) (get_json (req w))
                     (Some uid) (Some role))
          (db w) (frame w) (stdout w).

(** The world after a transaction that went through. *)
Definition committed (s : string) (n : Z) (w : world) : world :=
  mkWorld (req w)
          (mkDatabase (sql_update_status s n (tables (db w))) None []
                      (calls (db w) ++ [OpConnect; OpCursor; OpExecute;
                                        OpFetchone; OpCommit; OpCloseCursor;
                                        OpCloseConnection]))
          (mkLocals true true) (stdout w).

(** The same request with another JSON body. *)
Definition with_body (body : json) (w : world) : world :=
  mkWorld (mkRequest (authorization (req w)) body (user_id (req w))
                     (user_role (req w)))
          (db w) (frame w) (stdout w).

(** [data.get('status')] on an object body. *)
Definition status_of (items : dict) : json :=
  match lookup "status" items with
  | Some v => v
  | None => JNull
  end.

(** Rows other than those numbered [n] sit unchanged at their positions. *)
Definition others_unchanged (n : Z) (before after : list row) : Prop :=
  length after = length before /\
  forall i r, table_number r <> n ->
    (nth_error before i = Some r <-> nth_error after i = Some r).

Fixpoint has_space (s : string) : bool :=
  match s with
  | EmptyString => false
  | String c s' => Ascii.eqb c " "%char || has_space s'
  end.


(** ** Start-up

    The block under [if __name__ == '__main__':], up to [app.run].  The world
    records the rows of [tables] only: [CREATE TABLE IF NOT EXISTS] reaches the
    driver and leaves the rows as they are (a relation created here has none),
    and the five other relations hold no row the program reads. *)

(** [range(lo, hi)] *)
Definition py_range (lo hi : Z) : list Z :=
  map (fun k => (lo + Z.of_nat k)%Z) (seq 0 (Z.to_nat (hi - lo))).

(** [for x in l: body(x)] *)
Fixpoint for_each {A} (l : list A) (body : A -> M unit) : M unit :=
  match l with
  | [] => ret tt
  | x :: l' => body x ;; for_each l' body
  end.

(** [INSERT INTO tables (table_number, status) VALUES (%s, %s)
    ON CONFLICT (table_number) DO NOTHING] on a view. *)
Definition sql_insert_table (n : Z) (s : string) (view : list row) : list row :=
  if existsb (fun r => (table_number r =? n)%Z) view then view
  else view ++ [mkRow n (Some s)].

Section Startup.

Variable faults : db_op -> option exn.

(** [cur.execute("CREATE TABLE IF NOT EXISTS ...")] *)
Definition execute_create : M unit :=
  driver faults OpExecute ;;
  d <- get_db ;;
  match session d with
  | Some view => set_db (mkDatabase (tables d) (Some view) [] (calls d))
  | None => raise (Psycopg2Error "connection already closed")
  end.

(** [cur.execute(sql.SQL("INSERT ... ON CONFLICT (table_number) DO NOTHING"),
    (i, 'available'))] *)
Definition execute_insert (n : Z) (s : string) : M unit :=
  driver faults OpExecute ;;
  d <- get_db ;;
  match session d with
  | Some view =>
      set_db (mkDatabase (tables d) (Some (sql_insert_table n s view)) []
                         (calls d))
  | None => raise (Psycopg2Error "connection already closed")
  end.

(** The initialisation that precedes [app.run]. *)
Definition initialize : M unit :=
  set_frame (mkLocals false false) ;;
  try_except_finally
    (get_db_connection faults ;;
     l <- get_frame ;; set_frame (mkLocals true (cur l)) ;;
     cursor faults ;;
     l <- get_frame ;; set_frame (mkLocals (conn l) true) ;;
     execute_create ;;
     for_each (py_range 1 6) (fun i => execute_insert i "available") ;;
     execute_create ;;
     execute_create ;;
     execute_create ;;
     execute_create ;;
     execute_create ;;
     commit faults ;;
     print "Database tables checked/created successfully.")
    (fun e => Some (print ("Error initializing database: " ++ exn_text e)))
    (release faults).

End Startup.

Section Requests.

Variable environ : string -> option string.
Variable jwt_decode : string -> string -> list string -> jwt_exception + dict.

(** A request the endpoint lets through to the statement, asking for status
    [s]: a token that verifies and names an id and an allowed role, and an
    object body whose status is [s], one of the four. *)
Definition valid_request (r : request) (s : string) : Prop :=
  exists h tok payload uid role items,
    authorization r = Some h /\
    nth_error (split_space h) 1 = Some tok /\
    tok <> "" /\
    jwt_decode tok (SECRET_KEY environ) ["HS256"] = inr payload /\
    lookup "user_id" payload = Some uid /\
    lookup "role" payload = Some (JStr role) /\
    In role allowed_roles /\
    get_json r = JObj items /\
    lookup "status" items = Some (JStr s) /\
    In s allowed_statuses.

End Requests.

(** The rows after the five inserts of the start-up. *)
Definition seed (view : list row) : list row :=
  fold_left (fun v i => sql_insert_table i "available" v) (py_range 1 6) view.

(** Every status stored is one of the four (or [NULL]). *)
Definition statuses_allowed (view : list row) : Prop :=
  forall r s, In r view -> status r = Some s -> In s allowed_statuses.

(** The outcomes with which the gate itself ends a request. *)
Definition gate_rejections : list (exn + response) :=
  [inr token_missing; inr token_expired; inr token_invalid;
   inl IndexError; inl (KeyError "user_id"); inl (KeyError "role")].

(** The bodies the endpoint answers with, the success body apart. *)
Definition fixed_responses (n : Z) : list response :=
  [token_missing; token_expired; token_invalid; unauthorized; status_required;
   invalid_status; not_found n; database_error; unexpected_error].

(** A new request met by the world a previous one left. *)
Definition arrive (r : request) (w : world) : world :=
  mkWorld r (db w) (frame w) (stdout w).

(** [calls] grew by [added]. *)
Definition issued (w w' : world) (added : list db_op) : Prop :=
  calls (db w') = calls (db w) ++ added.

(** ** A concrete deployment

    No [SECRET_KEY] in the environment, the five tables the start-up seeds, and
    a stand-in for PyJWT that knows a handful of tokens. *)

Module Demo.

Definition environ (name : string) : option string := None.

Definition claims (uid : Z) (role : string) : dict :=
  [("user_id", JInt uid); ("role", JStr role); ("exp", JInt 4102444800)].

Definition jwt_decode (token key : string) (algorithms : list string)
  : jwt_exception + dict :=
  if negb (key =? "your_super_secret_key") then inl InvalidSignatureError
  else if negb (existsb (String.eqb "HS256") algorithms) then
    inl InvalidAlgorithmError
  else if token =? "waiter.jwt" then inr (claims 7 "waiter")
  else if token =? "admin.jwt" then inr (claims 1 "admin")
  else if token =? "customer.jwt" then inr (claims 9 "customer")
  else if token =? "anonymous.jwt" then inr [("user_id", JInt 8)]
  else if token =? "stale.jwt" then inl ExpiredSignatureError
  else if token =? "forged.jwt" then inl InvalidSignatureError
  else inl DecodeError.

Definition no_faults (op : db_op) : option exn := None.

(** The store refuses the connection. *)
Definition unreachable_store (op : db_op) : option exn :=
  match op with
  | OpConnect => Some (Psycopg2Error "could not connect to server")
  | _ => None
  end.

(** The statement fails on the server. *)
Definition failing_statement (op : db_op) : option exn :=
  match op with
  | OpExecute => Some (Psycopg2Error "relation tables does not exist")
  | _ => None
  end.

(** [for i in range(1, 6): INSERT ... (i, 'available')] *)
Definition seeded : list row :=
  map (fun i => mkRow i (Some "available")) [1; 2; 3; 4; 5]%Z.

Definition store : database := mkDatabase seeded None [] [].

Definition put (header : option string) (body : json) : world :=
  mkWorld (mkRequest header body None None) store (mkLocals false false) [].

Definition status_body (s : string) : json := JObj [("status", JStr s)].

Definition run (w : world) (n : Z) : (exn + response) * world :=
  update_table_status environ jwt_decode no_faults n w.

End Demo.

(** Further requests, stores and failures on that deployment. *)

Module Cases.

Definition waiter (s : string) : request :=
  mkRequest (Some "Bearer waiter.jwt") (Demo.status_body s) None None.

Definition admin (s : string) : request :=
  mkRequest (Some "Bearer admin.jwt") (Demo.status_body s) None None.

(** A store found at a restart: table 3 occupied, a table 9 reserved. *)
Definition reopened : world :=
  mkWorld (mkRequest None JNull None None)
          (mkDatabase [mkRow 3 (Some "occupied"); mkRow 9 (Some "reserved")]
                      None [] [])
          (mkLocals false false) [].

(** The statement fails with something that is no [psycopg2.Error]. *)
Definition out_of_memory (op : db_op) : option exn :=
  match op with
  | OpExecute => Some (OtherException "out of memory")
  | _ => None
  end.

End Cases.


(** * Properties *)

(** ** Strings and rows *)

Example split_space_bearer :
  split_space "Bearer abc.def.ghi" = ["Bearer"; "abc.def.ghi"].
Proof. reflexivity. Qed.

Example split_space_double_space : split_space "a  b" = ["a"; ""; "b"].
Proof. reflexivity. Qed.

Example split_space_trailing : split_space "Bearer " = ["Bearer"; ""].
Proof. reflexivity. Qed.

Example split_space_empty : split_space "" = [""].
Proof. reflexivity. Qed.

Example str_of_int_examples :
  (str_of_int 0, str_of_int 999, str_of_int (-12)) = ("0", "999", "-12").
Proof. reflexivity. Qed.

Example join_allowed_statuses :
  join ", " allowed_statuses = "available, occupied, cleaning, reserved".
Proof. reflexivity. Qed.

Lemma split_space_nonempty (s : string) : split_space s <> [].
Proof.
  destruct s as [|c s]; simpl; [discriminate|].
  destruct (Ascii.eqb c " "); [discriminate|].
  destruct (split_space s); discriminate.
Qed.

(** A word without a space is a single part: there is no second one. *)
Lemma split_space_word (s : string) :
  has_space s = false -> split_space s = [s].
Proof.
  induction s as [|c s IH]; simpl; [reflexivity|].
  destruct (Ascii.eqb c " "); simpl; [discriminate|].
  intros H. rewrite (IH H). reflexivity.
Qed.

(** A word, a space, and the rest: the word is the first part. *)
Lemma split_space_scheme (scheme rest : string) :
  has_space scheme = false ->
  split_space (scheme ++ " " ++ rest) = scheme :: split_space rest.
Proof.
  induction scheme as [|c s IH]; simpl; [reflexivity|].
  destruct (Ascii.eqb c " "); simpl; [discriminate|].
  intros H. simpl in IH. rewrite (IH H). reflexivity.
Qed.

Lemma py_in_In (v : json) (l : list string) :
  py_in v l = true <-> exists s, v = JStr s /\ In s l.
Proof.
  unfold py_in. rewrite existsb_exists. split.
  - intros [s [Hin Heq]]. destruct v; simpl in Heq; try discriminate.
    apply String.eqb_eq in Heq. subst. eauto.
  - intros [s [-> Hin]]. exists s. split; [assumption|]. simpl.
    apply String.eqb_refl.
Qed.

Lemma sql_update_status_length (s : string) (n : Z) (view : list row) :
  length (sql_update_status s n view) = length view.
Proof. unfold sql_update_status. apply length_map. Qed.

Lemma sql_update_status_others (s : string) (n : Z) (view : list row) :
  others_unchanged n view (sql_update_status s n view).
Proof.
  split; [apply sql_update_status_length|].
  unfold sql_update_status.
  induction view as [|x view IH]; intros i r Hr.
  - destruct i; simpl; tauto.
  - destruct i as [|i]; simpl.
    + destruct (Z.eqb_spec (table_number x) n) as [E|E].
      * split; intros H; injection H as <-; simpl in Hr; congruence.
      * tauto.
    + apply IH. assumption.
Qed.

Lemma others_unchanged_refl (n : Z) (view : list row) :
  others_unchanged n view view.
Proof. split; [reflexivity|tauto]. Qed.

(** The statement writes the requested status into every row it matches. *)
Lemma sql_update_status_sets (s : string) (n : Z) (view : list row) (r : row) :
  In r (sql_update_status s n view) -> table_number r = n ->
  status r = Some s.
Proof.
  unfold sql_update_status. rewrite in_map_iff.
  intros [x [Hx _]] Hn.
  destruct (Z.eqb_spec (table_number x) n) as [E|E]; subst r; simpl in *.
  - reflexivity.
  - contradiction.
Qed.

(** With a matching row, [RETURNING *] starts with that row as written. *)
Lemma sql_returning_hit (s : string) (n : Z) (view : list row) :
  (exists r, In r view /\ table_number r = n) ->
  exists rest,
    sql_returning n (sql_update_status s n view) = mkRow n (Some s) :: rest.
Proof.
  unfold sql_returning, sql_update_status.
  induction view as [|x view IH]; intros [r [Hin Hn]]; [destruct Hin|].
  simpl. destruct (Z.eqb_spec (table_number x) n) as [E|E]; simpl.
  - rewrite E, Z.eqb_refl. eauto.
  - destruct (Z.eqb_spec (table_number x) n); [contradiction|].
    apply IH. destruct Hin as [->|Hin]; [contradiction|eauto].
Qed.

(** Without one, it returns nothing and the statement writes nothing. *)
Lemma sql_returning_miss (s : string) (n : Z) (view : list row) :
  (forall r, In r view -> table_number r <> n) ->
  sql_update_status s n view = view /\
  sql_returning n (sql_update_status s n view) = [].
Proof.
  unfold sql_returning, sql_update_status.
  induction view as [|x view IH]; intros H; [split; reflexivity|].
  simpl. destruct (Z.eqb_spec (table_number x) n) as [E|E].
  - exfalso. apply (H x); [left; reflexivity|assumption].
  - destruct (Z.eqb_spec (table_number x) n); [contradiction|].
    destruct IH as [IH1 IH2]; [intros r Hr; apply H; right; assumption|].
    rewrite IH1. split; [reflexivity|]. rewrite IH1 in IH2. exact IH2.
Qed.

Lemma sql_update_status_In (s : string) (n : Z) (view : list row) :
  (exists r, In r view /\ table_number r = n) ->
  In (mkRow n (Some s)) (sql_update_status s n view).
Proof.
  intros [r [Hin Hn]]. unfold sql_update_status. apply in_map_iff.
  exists r. split; [|assumption].
  rewrite Hn, Z.eqb_refl. reflexivity.
Qed.

Section Contract.

Variable environ : string -> option string.
Variable jwt_decode : string -> string -> list string -> jwt_exception + dict.
Variable faults : db_op -> option exn.

Local Abbreviation gate := (token_required environ jwt_decode).
Local Abbreviation view := (update_table_status_view faults).
Local Abbreviation endpoint := (update_table_status environ jwt_decode faults).
Local Abbreviation carries := (presents environ jwt_decode).

(** ** The gate *)

Lemma token_truthy_nonempty (tok : string) :
  tok <> "" -> token_truthy (Some tok) = true.
Proof.
  intros H. unfold token_truthy.
  apply String.eqb_neq in H. rewrite H. reflexivity.
Qed.

(** Without the header the gate answers 401 and leaves the view alone. *)
Lemma gate_no_header {A} (f : A -> M response) (a : A) (w : world) :
  authorization (req w) = None ->
  gate f a w = (inr token_missing, w).
Proof.
  intros H. unfold token_required, decorated, read_token, bind, get_req.
  rewrite H. reflexivity.
Qed.

(** An empty second part counts as no token. *)
Lemma gate_empty_token {A} (f : A -> M response) (a : A) (w : world) h :
  authorization (req w) = Some h ->
  nth_error (split_space h) 1 = Some "" ->
  gate f a w = (inr token_missing, w).
Proof.
  intros H1 H2. unfold token_required, decorated, read_token, bind, get_req.
  rewrite H1, H2. reflexivity.
Qed.

(** A header value with a single part: the index is out of range. *)
Lemma gate_single_part {A} (f : A -> M response) (a : A) (w : world) h :
  authorization (req w) = Some h ->
  has_space h = false ->
  gate f a w = (inl IndexError, w).
Proof.
  intros H1 H2. unfold token_required, decorated, read_token, bind, get_req.
  rewrite H1, (split_space_word _ H2). reflexivity.
Qed.

(** A token that does not verify: the clause for the exception answers. *)
Lemma gate_rejects {A} (f : A -> M response) (a : A) (w : world) h tok e :
  authorization (req w) = Some h ->
  nth_error (split_space h) 1 = Some tok ->
  tok <> "" ->
  jwt_decode tok (SECRET_KEY environ) ["HS256"] = inl e ->
  gate f a w =
    (inr (match e with
          | ExpiredSignatureError => token_expired
          | _ => token_invalid
          end), w).
Proof.
  intros H1 H2 H3 H4.
  unfold token_required, decorated, read_token, bind, get_req.
  rewrite H1, H2. cbn -[token_truthy].
  rewrite (token_truthy_nonempty _ H3). cbn.
  unfold verify_token, try_except, try_except_finally, bind.
  rewrite H4. cbn. destruct e; reflexivity.
Qed.

(** A token that verifies and names both claims: the view runs, on the
    request with the claims attached. *)
Lemma gate_accepts {A} (f : A -> M response) (a : A) (w : world)
    payload uid role :
  carries w payload ->
  lookup "user_id" payload = Some uid ->
  lookup "role" payload = Some role ->
  gate f a w = f a (attach uid role w).
Proof.
  intros (h & tok & H1 & H2 & H3 & H4) Hu Hr.
  unfold token_required, decorated, read_token, bind, get_req.
  rewrite H1, H2. cbn -[token_truthy].
  rewrite (token_truthy_nonempty _ H3). cbn.
  unfold verify_token, try_except, try_except_finally, bind, getitem.
  rewrite H4. cbn. rewrite Hu. cbn. rewrite Hr. cbn.
  destruct (f a _) as [r w']. reflexivity.
Qed.

(** ** The view *)

(** Unfold the plumbing of the monad, and project the records it builds. *)
Ltac plumbing :=
  cbv beta iota delta
    [bind ret raise get_req set_req get_db set_db get_frame set_frame print
     getitem get_method get_user_role try_except try_except_finally];
  cbn [req db frame stdout tables session result_set calls conn cur
       authorization get_json user_id user_role fst snd negb].

Lemma view_unauthorized (n : Z) (w : world) role :
  user_role (req w) = Some role ->
  py_in role allowed_roles = false ->
  view n w = (inr unauthorized, w).
Proof.
  intros H1 H2. unfold update_table_status_view. plumbing.
  rewrite H1. plumbing. rewrite H2. reflexivity.
Qed.

(** A status that is not one of the four is turned away before the [try]:
    as required when it is falsy, as invalid otherwise. *)
Lemma view_bad_status (n : Z) (w : world) role items :
  user_role (req w) = Some role ->
  py_in role allowed_roles = true ->
  get_json (req w) = JObj items ->
  py_in (status_of items) allowed_statuses = false ->
  view n w =
    (inr (if truthy (status_of items) then invalid_status else status_required),
     w).
Proof.
  intros H1 H2 H3 H4.
  unfold update_table_status_view. plumbing.
  rewrite H1. plumbing. rewrite H2. plumbing. rewrite H3. plumbing.
  fold (status_of items).
  destruct (truthy (status_of items)); plumbing; [|reflexivity].
  rewrite H4. reflexivity.
Qed.

(** With no failure of the store, the view runs the statement, commits, and
    answers from the first row the statement returned. *)
Lemma view_transaction (n : Z) (w : world) role items s :
  user_role (req w) = Some role ->
  py_in role allowed_roles = true ->
  get_json (req w) = JObj items ->
  lookup "status" items = Some (JStr s) ->
  In s allowed_statuses ->
  healthy faults ->
  view n w =
    (inr (match sql_returning n (sql_update_status s n (tables (db w))) with
          | t :: _ => updated n (JStr s) t
          | [] => not_found n
          end),
     committed s n w).
Proof.
  intros H1 H2 H3 H4 H5 H6.
  assert (Hin : py_in (JStr s) allowed_statuses = true)
    by (apply py_in_In; eauto).
  assert (Ht : truthy (JStr s) = true).
  { destruct s; [|reflexivity]. simpl in H5. intuition discriminate. }
  unfold update_table_status_view. plumbing.
  rewrite H1. plumbing. rewrite H2. plumbing. rewrite H3. plumbing.
  rewrite H4, Ht. plumbing. rewrite Hin. plumbing.
  unfold get_db_connection, cursor, execute_update, fetchone, commit, release,
    close_cursor, close_connection, driver.
  plumbing. repeat (rewrite !H6; plumbing).
  unfold committed.
  destruct (sql_returning n (sql_update_status s n (tables (db w))));
    plumbing; repeat (rewrite !H6; plumbing);
    repeat rewrite <- app_assoc; reflexivity.
Qed.

(** Split on whatever the run is waiting for. *)
Ltac branch :=
  match goal with
  | |- context [match ?x with _ => _ end] =>
      lazymatch x with
      | context [match _ with _ => _ end] => fail
      | _ => destruct x eqn:?
      end
  end.

Ltac view_unfold :=
  unfold update_table_status_view, get_db_connection, cursor, execute_update,
    fetchone, commit, rollback, release, close_cursor, close_connection, driver.

(** Whatever the request and whatever fails, the view leaves every row that
    is not numbered [n] as it was: the only write is the one statement. *)
Lemma view_others_unchanged (n : Z) (w : world) :
  others_unchanged n (tables (db w)) (tables (db (snd (view n w)))).
Proof.
  view_unfold. plumbing.
  repeat (branch; plumbing);
    first [apply others_unchanged_refl | apply sql_update_status_others].
Qed.

(** The gate itself writes nothing, so the same holds behind it. *)
Lemma endpoint_others_unchanged (n : Z) (w : world) :
  others_unchanged n (tables (db w)) (tables (db (snd (endpoint n w)))).
Proof.
  unfold update_table_status, token_required, decorated, read_token,
    verify_token.
  plumbing.
  repeat (branch; plumbing);
    first [ apply others_unchanged_refl
          | match goal with
            | |- context [update_table_status_view _ _ ?W] =>
                apply (view_others_unchanged n W)
            end ].
Qed.

(** The connection is refused with a [psycopg2.Error]: the clause calls
    [rollback] on a [conn] that is still [None]. *)
Lemma view_connection_refused (n : Z) (w : world) role items s e :
  user_role (req w) = Some role ->
  py_in role allowed_roles = true ->
  get_json (req w) = JObj items ->
  lookup "status" items = Some (JStr s) ->
  In s allowed_statuses ->
  faults OpConnect = Some e ->
  is_psycopg2_error e = true ->
  view n w =
    (inl (AttributeError "rollback"),
     mkWorld (req w)
             (mkDatabase (tables (db w)) (session (db w)) (result_set (db w))
                         (calls (db w) ++ [OpConnect]))
             (mkLocals false false) (stdout w)).
Proof.
  intros H1 H2 H3 H4 H5 H6 H7.
  assert (Hin : py_in (JStr s) allowed_statuses = true)
    by (apply py_in_In; eauto).
  assert (Ht : truthy (JStr s) = true).
  { destruct s; [|reflexivity]. simpl in H5. intuition discriminate. }
  view_unfold. plumbing.
  rewrite H1. plumbing. rewrite H2. plumbing. rewrite H3. plumbing.
  rewrite H4, Ht. plumbing. rewrite Hin. plumbing.
  rewrite H6. plumbing. rewrite H7. plumbing. reflexivity.
Qed.


(** ** The endpoint contract *)

Lemma allowed_role_in (role : string) :
  In role allowed_roles -> py_in (JStr role) allowed_roles = true.
Proof. intros H. apply py_in_In. eauto. Qed.

Lemma not_allowed (v : json) (l : list string) :
  (forall s, In s l -> v <> JStr s) -> py_in v l = false.
Proof.
  intros H. destruct (py_in v l) eqn:E; [|reflexivity].
  apply py_in_In in E. destruct E as [s [-> Hs]].
  exfalso. apply (H s Hs). reflexivity.
Qed.

Lemma falsy_not_allowed (v : json) :
  truthy v = false -> py_in v allowed_statuses = false.
Proof.
  intros H. apply not_allowed. intros s Hs ->.
  simpl in Hs. destruct Hs as [<-|[<-|[<-|[<-|[]]]]]; discriminate.
Qed.

(** C1.  A request with a token that verifies, a role of waiter or admin, one
    of the four statuses and the number of an existing row: the one
    [UPDATE ... RETURNING] statement writes the status into the row and is
    committed, and the answer is 200 with that number and that status, which
    are those of a row now stored. *)
Theorem update_table_status_persists_and_reports
    (n : Z) (w : world) payload uid role items s :
  carries w payload ->
  lookup "user_id" payload = Some uid ->
  lookup "role" payload = Some (JStr role) ->
  In role allowed_roles ->
  get_json (req w) = JObj items ->
  lookup "status" items = Some (JStr s) ->
  In s allowed_statuses ->
  (exists r, In r (tables (db w)) /\ table_number r = n) ->
  healthy faults ->
  exists w',
    endpoint n w =
      (inr (jsonify [("message",
                      JStr ("Table " ++ str_of_int n
                            ++ " status updated to " ++ s));
                     ("table_number", JInt n);
                     ("status", JStr s)], 200%Z), w') /\
    tables (db w') = sql_update_status s n (tables (db w)) /\
    In (mkRow n (Some s)) (tables (db w')) /\
    (forall r, In r (tables (db w')) -> table_number r = n ->
               status r = Some s) /\
    calls (db w') =
      calls (db w) ++ [OpConnect; OpCursor; OpExecute; OpFetchone; OpCommit;
                       OpCloseCursor; OpCloseConnection].
Proof.
  intros Hc Hu Hr Hrole Hb Hs Hin Hrow Hh.
  unfold update_table_status. rewrite (gate_accepts _ _ _ _ _ _ Hc Hu Hr).
  rewrite (view_transaction n (attach uid (JStr role) w) (JStr role) items s);
    try assumption; try reflexivity; [|apply allowed_role_in; assumption].
  cbn [attach db].
  destruct (sql_returning_hit s n _ Hrow) as [rest ->].
  eexists. split; [reflexivity|]. cbn [committed db tables calls].
  repeat split.
  - apply sql_update_status_In. assumption.
  - intros r. apply sql_update_status_sets.
Qed.

(** C2, amended.  For a caller with an allowed role and an object body whose
    status (absent counting as [None]) is not one of the four: the answer is
    400, "Status is required" when the status is absent or falsy and "Invalid
    status" with the four values listed when it is truthy; the store is not
    reached. *)
Theorem update_table_status_rejects_status
    (n : Z) (w : world) payload uid role items :
  carries w payload ->
  lookup "user_id" payload = Some uid ->
  lookup "role" payload = Some (JStr role) ->
  In role allowed_roles ->
  get_json (req w) = JObj items ->
  (forall s, In s allowed_statuses -> status_of items <> JStr s) ->
  exists w',
    endpoint n w =
      (inr (if truthy (status_of items) then invalid_status
            else status_required), w') /\
    db w' = db w /\ stdout w' = stdout w /\
    status_required = (jsonify [("error", JStr "Status is required")], 400%Z) /\
    invalid_status =
      (jsonify [("error",
                 JStr "Invalid status. Allowed statuses are: available, occupied, cleaning, reserved")],
       400%Z).
Proof.
  intros Hc Hu Hr Hrole Hb Hs.
  unfold update_table_status. rewrite (gate_accepts _ _ _ _ _ _ Hc Hu Hr).
  rewrite (view_bad_status n (attach uid (JStr role) w) (JStr role) items);
    try assumption; try reflexivity;
    [|apply allowed_role_in; assumption|apply not_allowed; assumption].
  eexists. repeat split.
Qed.

(** C3, at the failing input.  With [Authorization: Bearer] and nothing after
    the scheme word, the gate does not answer 401: the index into the split
    header is out of range and the exception leaves the gate. *)
Theorem token_required_bare_scheme_raises
    {A} (f : A -> M response) (a : A) body uid role d l out :
  gate f a (mkWorld (mkRequest (Some "Bearer") body uid role) d l out) =
    (inl IndexError,
     mkWorld (mkRequest (Some "Bearer") body uid role) d l out).
Proof. apply gate_single_part with (h := "Bearer"); reflexivity. Qed.

(** C4, at the failing input.  When the connection cannot be obtained, the
    [except psycopg2.Error] clause calls [rollback] on [None]: the view ends
    with an [AttributeError] instead of the 500 body, and after the refused
    connection nothing more reaches the driver. *)
Theorem update_table_status_connection_refused
    (n : Z) (w : world) payload uid role items s detail :
  carries w payload ->
  lookup "user_id" payload = Some uid ->
  lookup "role" payload = Some (JStr role) ->
  In role allowed_roles ->
  get_json (req w) = JObj items ->
  lookup "status" items = Some (JStr s) ->
  In s allowed_statuses ->
  faults OpConnect = Some (Psycopg2Error detail) ->
  exists w',
    endpoint n w = (inl (AttributeError "rollback"), w') /\
    calls (db w') = calls (db w) ++ [OpConnect] /\
    tables (db w') = tables (db w).
Proof.
  intros Hc Hu Hr Hrole Hb Hs Hin Hf.
  unfold update_table_status. rewrite (gate_accepts _ _ _ _ _ _ Hc Hu Hr).
  rewrite (view_connection_refused n (attach uid (JStr role) w) (JStr role)
             items s (Psycopg2Error detail));
    try assumption; try reflexivity; [|apply allowed_role_in; assumption].
  eexists. repeat split.
Qed.

(** C5.  With a valid status and role but a number that no row carries, the
    answer is 404 and the rows of [tables] are what they were. *)
Theorem update_table_status_unknown_table
    (n : Z) (w : world) payload uid role items s :
  carries w payload ->
  lookup "user_id" payload = Some uid ->
  lookup "role" payload = Some (JStr role) ->
  In role allowed_roles ->
  get_json (req w) = JObj items ->
  lookup "status" items = Some (JStr s) ->
  In s allowed_statuses ->
  (forall r, In r (tables (db w)) -> table_number r <> n) ->
  healthy faults ->
  exists w',
    endpoint n w =
      (inr (jsonify [("error",
                      JStr ("Table " ++ str_of_int n ++ " not found"))],
            404%Z), w') /\
    tables (db w') = tables (db w).
Proof.
  intros Hc Hu Hr Hrole Hb Hs Hin Hrow Hh.
  unfold update_table_status. rewrite (gate_accepts _ _ _ _ _ _ Hc Hu Hr).
  rewrite (view_transaction n (attach uid (JStr role) w) (JStr role) items s);
    try assumption; try reflexivity; [|apply allowed_role_in; assumption].
  cbn [attach db].
  destruct (sql_returning_miss s n _ Hrow) as [Hsame ->].
  eexists. split; [reflexivity|]. cbn [committed db tables]. exact Hsame.
Qed.

(** C6.  A token that verifies but whose role is neither waiter nor admin is
    answered 403, not the 401 of the gate, and the store is not reached. *)
Theorem update_table_status_forbidden
    (n : Z) (w : world) payload uid role :
  carries w payload ->
  lookup "user_id" payload = Some uid ->
  lookup "role" payload = Some role ->
  (forall s, In s allowed_roles -> role <> JStr s) ->
  exists w',
    endpoint n w = (inr unauthorized, w') /\
    snd unauthorized = 403%Z /\
    snd unauthorized <> snd token_missing /\
    snd unauthorized <> snd token_expired /\
    snd unauthorized <> snd token_invalid /\
    db w' = db w /\ stdout w' = stdout w.
Proof.
  intros Hc Hu Hr Hrole.
  unfold update_table_status. rewrite (gate_accepts _ _ _ _ _ _ Hc Hu Hr).
  rewrite (view_unauthorized n (attach uid role w) role);
    [|reflexivity|apply not_allowed; assumption].
  eexists. repeat split; discriminate.
Qed.

(** C7.  A token for which PyJWT raises [ExpiredSignatureError] is answered
    "Token has expired!"; one for which it raises any other
    [InvalidTokenError] (malformed, bad signature, wrong algorithm) is
    answered "Invalid Token!"; the two answers differ, both are 401, and the
    wrapped view does not run. *)
Theorem token_required_expired_or_invalid
    {A} (f : A -> M response) (a : A) (w : world) h tok e :
  authorization (req w) = Some h ->
  nth_error (split_space h) 1 = Some tok ->
  tok <> "" ->
  jwt_decode tok (SECRET_KEY environ) ["HS256"] = inl e ->
  (e = ExpiredSignatureError -> gate f a w = (inr token_expired, w)) /\
  (e <> ExpiredSignatureError -> gate f a w = (inr token_invalid, w)) /\
  token_expired = (jsonify [("message", JStr "Token has expired!")], 401%Z) /\
  token_invalid = (jsonify [("message", JStr "Invalid Token!")], 401%Z) /\
  token_expired <> token_invalid.
Proof.
  intros H1 H2 H3 H4.
  rewrite (gate_rejects f a w h tok e H1 H2 H3 H4).
  repeat split; try discriminate.
  - intros ->. reflexivity.
  - intros Hne. destruct e; [contradiction| reflexivity ..].
Qed.

(** C8.  When the endpoint answers 200 for table [n], every row with another
    number is, at its position, what it was before. *)
Theorem update_table_status_frame (n : Z) (w w' : world) (body : json) :
  endpoint n w = (inr (body, 200%Z), w') ->
  others_unchanged n (tables (db w)) (tables (db w')).
Proof.
  intros H. pose proof (endpoint_others_unchanged n w) as Hf.
  rewrite H in Hf. exact Hf.
Qed.

(** C9.  When the header value splits into at least two parts, the second is
    the token whatever the first is: if it verifies and names both claims,
    the wrapped view runs with them attached. *)
Theorem token_required_ignores_scheme
    {A} (f : A -> M response) (a : A) (w : world)
    h scheme tok rest payload uid role :
  authorization (req w) = Some h ->
  split_space h = scheme :: tok :: rest ->
  tok <> "" ->
  jwt_decode tok (SECRET_KEY environ) ["HS256"] = inr payload ->
  lookup "user_id" payload = Some uid ->
  lookup "role" payload = Some role ->
  gate f a w = f a (attach uid role w).
Proof.
  intros H1 H2 H3 H4 Hu Hr.
  apply gate_accepts with (payload := payload); try assumption.
  exists h, tok. rewrite H2. repeat split; assumption.
Qed.

(** C10.  A body that maps status to a falsy value (the empty string, [None],
    [False], 0, an empty list or object) gets the 400 "Status is required"
    answer, the very answer a body without the key gets, which is not the
    "Invalid status" one; the store is not reached. *)
Theorem update_table_status_falsy_status
    (n : Z) (w : world) payload uid role items v items0 :
  carries w payload ->
  lookup "user_id" payload = Some uid ->
  lookup "role" payload = Some (JStr role) ->
  In role allowed_roles ->
  get_json (req w) = JObj items ->
  lookup "status" items = Some v ->
  truthy v = false ->
  lookup "status" items0 = None ->
  exists w' w0',
    endpoint n w = (inr status_required, w') /\
    endpoint n (with_body (JObj items0) w) = (inr status_required, w0') /\
    status_required = (jsonify [("error", JStr "Status is required")], 400%Z) /\
    status_required <> invalid_status /\
    db w' = db w /\ stdout w' = stdout w.
Proof.
  intros Hc Hu Hr Hrole Hb Hs Hv Hs0.
  assert (Hc0 : carries (with_body (JObj items0) w) payload).
  { destruct Hc as (h & tok & H1 & H2 & H3 & H4). exists h, tok.
    repeat split; assumption. }
  unfold update_table_status.
  rewrite (gate_accepts _ _ _ _ _ _ Hc Hu Hr).
  rewrite (gate_accepts _ _ _ _ _ _ Hc0 Hu Hr).
  rewrite (view_bad_status n (attach uid (JStr role) w) (JStr role) items);
    try assumption; try reflexivity;
    [|apply allowed_role_in; assumption
     |apply falsy_not_allowed; unfold status_of; rewrite Hs; assumption].
  rewrite (view_bad_status n
             (attach uid (JStr role) (with_body (JObj items0) w))
             (JStr role) items0);
    try reflexivity;
    [|apply allowed_role_in; assumption
     |unfold status_of; rewrite Hs0; reflexivity].
  unfold status_of. rewrite Hs, Hs0, Hv. cbn [truthy].
  do 2 eexists. repeat split. discriminate.
Qed.

End Contract.

(** ** The contract on the concrete deployment *)

Lemma demo_carries (scheme token : string) (body : json) (payload : dict) :
  has_space scheme = false ->
  has_space token = false ->
  token <> "" ->
  Demo.jwt_decode token (SECRET_KEY Demo.environ) ["HS256"] = inr payload ->
  presents Demo.environ Demo.jwt_decode
    (Demo.put (Some (scheme ++ " " ++ token)%string) body) payload.
Proof.
  intros Hs Ht Hne Hd. exists (scheme ++ " " ++ token)%string, token.
  repeat split; try assumption.
  rewrite (split_space_scheme _ _ Hs), (split_space_word _ Ht). reflexivity.
Qed.

(** The statement fails on the server: rolled back, answered with the fixed
    body, and the text of the error is printed, not sent. *)
Example demo_statement_failure :
  let w := Demo.put (Some "Bearer waiter.jwt") (Demo.status_body "occupied") in
  let out :=
    update_table_status Demo.environ Demo.jwt_decode Demo.failing_statement
      3 w in
  fst out = inr database_error /\
  tables (db (snd out)) = Demo.seeded /\
  calls (db (snd out)) =
    [OpConnect; OpCursor; OpExecute; OpRollback; OpCloseCursor;
     OpCloseConnection] /\
  stdout (snd out) = ["Database error: relation tables does not exist"].
Proof. vm_compute. repeat split. Qed.

(** Scenario 4 of the contract: no [Authorization] header. *)
Example demo_no_header :
  Demo.run (Demo.put None (Demo.status_body "available")) 3 =
    (inr (jsonify [("message", JStr "Token is missing!")], 401%Z),
     Demo.put None (Demo.status_body "available")).
Proof. apply gate_no_header. reflexivity. Qed.

(** Scenario 1 of the contract: table 3, "occupied", a waiter. *)
Lemma update_table_status_persists_and_reports_witness :
  exists w',
    Demo.run (Demo.put (Some "Bearer waiter.jwt") (Demo.status_body "occupied"))
             3 =
      (inr (jsonify [("message", JStr "Table 3 status updated to occupied");
                     ("table_number", JInt 3);
                     ("status", JStr "occupied")], 200%Z), w') /\
    tables (db w') = sql_update_status "occupied" 3 Demo.seeded /\
    In (mkRow 3 (Some "occupied")) (tables (db w')) /\
    (forall r, In r (tables (db w')) -> table_number r = 3%Z ->
               status r = Some "occupied") /\
    calls (db w') =
      [OpConnect; OpCursor; OpExecute; OpFetchone; OpCommit;
       OpCloseCursor; OpCloseConnection].
Proof.
  apply (update_table_status_persists_and_reports
           Demo.environ Demo.jwt_decode Demo.no_faults 3
           (Demo.put (Some "Bearer waiter.jwt") (Demo.status_body "occupied"))
           (Demo.claims 7 "waiter") (JInt 7) "waiter"
           [("status", JStr "occupied")] "occupied").
  - apply (demo_carries "Bearer" "waiter.jwt");
      [reflexivity | reflexivity | discriminate | reflexivity].
  - reflexivity.
  - reflexivity.
  - simpl. tauto.
  - reflexivity.
  - reflexivity.
  - simpl. tauto.
  - exists (mkRow 3 (Some "available")). split; [simpl; tauto | reflexivity].
  - intros op. reflexivity.
Defined.

(** Status "" is present and is not one of the four, yet the answer is the
    "Status is required" one and not the "Invalid status" one. *)
Lemma update_table_status_empty_status_not_invalid :
  lookup "status" [("status", JStr "")] = Some (JStr "") /\
  ~ In "" allowed_statuses /\
  fst (Demo.run (Demo.put (Some "Bearer waiter.jwt") (Demo.status_body "")) 3)
    = inr status_required /\
  fst (Demo.run (Demo.put (Some "Bearer waiter.jwt") (Demo.status_body "")) 3)
    <> inr invalid_status.
Proof.
  split; [reflexivity|]. split.
  - simpl. intros [H|[H|[H|[H|[]]]]]; discriminate.
  - split; [vm_compute; reflexivity | vm_compute; discriminate].
Qed.

(** Scenario 2 of the contract: "invalid_status" is answered with the list. *)
Lemma update_table_status_rejects_status_witness :
  exists w',
    Demo.run (Demo.put (Some "Bearer waiter.jwt")
                       (Demo.status_body "invalid_status")) 3 =
      (inr invalid_status, w') /\
    db w' = Demo.store /\ stdout w' = [] /\
    status_required = (jsonify [("error", JStr "Status is required")], 400%Z) /\
    invalid_status =
      (jsonify [("error",
                 JStr "Invalid status. Allowed statuses are: available, occupied, cleaning, reserved")],
       400%Z).
Proof.
  apply (update_table_status_rejects_status
           Demo.environ Demo.jwt_decode Demo.no_faults 3
           (Demo.put (Some "Bearer waiter.jwt")
                     (Demo.status_body "invalid_status"))
           (Demo.claims 7 "waiter") (JInt 7) "waiter"
           [("status", JStr "invalid_status")]).
  - apply (demo_carries "Bearer" "waiter.jwt");
      [reflexivity | reflexivity | discriminate | reflexivity].
  - reflexivity.
  - reflexivity.
  - simpl. tauto.
  - reflexivity.
  - intros s Hs. simpl in Hs.
    destruct Hs as [<-|[<-|[<-|[<-|[]]]]]; discriminate.
Defined.

(** The store refuses the connection of a waiter's valid request. *)
Lemma update_table_status_connection_refused_witness :
  exists w',
    update_table_status Demo.environ Demo.jwt_decode Demo.unreachable_store 3
      (Demo.put (Some "Bearer waiter.jwt") (Demo.status_body "occupied")) =
      (inl (AttributeError "rollback"), w') /\
    calls (db w') = [OpConnect] /\
    tables (db w') = Demo.seeded.
Proof.
  apply (update_table_status_connection_refused
           Demo.environ Demo.jwt_decode Demo.unreachable_store 3
           (Demo.put (Some "Bearer waiter.jwt") (Demo.status_body "occupied"))
           (Demo.claims 7 "waiter") (JInt 7) "waiter"
           [("status", JStr "occupied")] "occupied"
           "could not connect to server").
  - apply (demo_carries "Bearer" "waiter.jwt");
      [reflexivity | reflexivity | discriminate | reflexivity].
  - reflexivity.
  - reflexivity.
  - simpl. tauto.
  - reflexivity.
  - reflexivity.
  - simpl. tauto.
  - reflexivity.
Defined.

(** Scenario 3 of the contract: table 999, an admin. *)
Lemma update_table_status_unknown_table_witness :
  exists w',
    Demo.run (Demo.put (Some "Bearer admin.jwt") (Demo.status_body "available"))
             999 =
      (inr (jsonify [("error", JStr "Table 999 not found")], 404%Z), w') /\
    tables (db w') = Demo.seeded.
Proof.
  apply (update_table_status_unknown_table
           Demo.environ Demo.jwt_decode Demo.no_faults 999
           (Demo.put (Some "Bearer admin.jwt") (Demo.status_body "available"))
           (Demo.claims 1 "admin") (JInt 1) "admin"
           [("status", JStr "available")] "available").
  - apply (demo_carries "Bearer" "admin.jwt");
      [reflexivity | reflexivity | discriminate | reflexivity].
  - reflexivity.
  - reflexivity.
  - simpl. tauto.
  - reflexivity.
  - reflexivity.
  - simpl. tauto.
  - intros r Hr. simpl in Hr.
    destruct Hr as [<-|[<-|[<-|[<-|[<-|[]]]]]]; discriminate.
  - intros op. reflexivity.
Defined.

(** Scenario 5 of the contract: the role is "customer". *)
Lemma update_table_status_forbidden_witness :
  exists w',
    Demo.run (Demo.put (Some "Bearer customer.jwt")
                       (Demo.status_body "occupied")) 3 =
      (inr unauthorized, w') /\
    snd unauthorized = 403%Z /\
    snd unauthorized <> snd token_missing /\
    snd unauthorized <> snd token_expired /\
    snd unauthorized <> snd token_invalid /\
    db w' = Demo.store /\ stdout w' = [].
Proof.
  apply (update_table_status_forbidden
           Demo.environ Demo.jwt_decode Demo.no_faults 3
           (Demo.put (Some "Bearer customer.jwt") (Demo.status_body "occupied"))
           (Demo.claims 9 "customer") (JInt 9) (JStr "customer")).
  - apply (demo_carries "Bearer" "customer.jwt");
      [reflexivity | reflexivity | discriminate | reflexivity].
  - reflexivity.
  - reflexivity.
  - intros s Hs. simpl in Hs. destruct Hs as [<-|[<-|[]]]; discriminate.
Defined.

(** A stale token before any view. *)
Lemma token_required_expired_or_invalid_witness :
  token_required Demo.environ Demo.jwt_decode
    (update_table_status_view Demo.no_faults) 3%Z
    (Demo.put (Some "Bearer stale.jwt") (Demo.status_body "occupied")) =
    (inr token_expired,
     Demo.put (Some "Bearer stale.jwt") (Demo.status_body "occupied")).
Proof.
  apply (proj1 (token_required_expired_or_invalid
                  Demo.environ Demo.jwt_decode
                  (update_table_status_view Demo.no_faults) 3%Z
                  (Demo.put (Some "Bearer stale.jwt")
                            (Demo.status_body "occupied"))
                  "Bearer stale.jwt" "stale.jwt" ExpiredSignatureError
                  eq_refl eq_refl ltac:(discriminate) eq_refl)).
  reflexivity.
Defined.

(** Scenario 1 again: tables 1, 2, 4 and 5 stay as seeded. *)
Lemma update_table_status_frame_witness :
  others_unchanged 3 Demo.seeded
    (tables (db (snd (Demo.run (Demo.put (Some "Bearer waiter.jwt")
                                         (Demo.status_body "occupied")) 3)))).
Proof.
  apply (update_table_status_frame
           Demo.environ Demo.jwt_decode Demo.no_faults 3
           (Demo.put (Some "Bearer waiter.jwt") (Demo.status_body "occupied"))
           (snd (Demo.run (Demo.put (Some "Bearer waiter.jwt")
                                    (Demo.status_body "occupied")) 3))
           (jsonify [("message", JStr "Table 3 status updated to occupied");
                     ("table_number", JInt 3);
                     ("status", JStr "occupied")])).
  vm_compute. reflexivity.
Defined.

(** The scheme word is "Basic", and the view runs all the same. *)
Lemma token_required_ignores_scheme_witness :
  token_required Demo.environ Demo.jwt_decode
    (update_table_status_view Demo.no_faults) 3%Z
    (Demo.put (Some "Basic waiter.jwt") (Demo.status_body "occupied")) =
  update_table_status_view Demo.no_faults 3
    (attach (JInt 7) (JStr "waiter")
       (Demo.put (Some "Basic waiter.jwt") (Demo.status_body "occupied"))).
Proof.
  apply (token_required_ignores_scheme
           Demo.environ Demo.jwt_decode
           (update_table_status_view Demo.no_faults) 3%Z
           (Demo.put (Some "Basic waiter.jwt") (Demo.status_body "occupied"))
           "Basic waiter.jwt" "Basic" "waiter.jwt" []
           (Demo.claims 7 "waiter") (JInt 7) (JStr "waiter")).
  - reflexivity.
  - reflexivity.
  - discriminate.
  - reflexivity.
  - reflexivity.
  - reflexivity.
Defined.

(** The empty status against a body with no status at all. *)
Lemma update_table_status_falsy_status_witness :
  exists w' w0',
    Demo.run (Demo.put (Some "Bearer waiter.jwt") (Demo.status_body "")) 3 =
      (inr status_required, w') /\
    Demo.run (with_body (JObj [])
                (Demo.put (Some "Bearer waiter.jwt") (Demo.status_body ""))) 3 =
      (inr status_required, w0') /\
    status_required = (jsonify [("error", JStr "Status is required")], 400%Z) /\
    status_required <> invalid_status /\
    db w' = Demo.store /\ stdout w' = [].
Proof.
  apply (update_table_status_falsy_status
           Demo.environ Demo.jwt_decode Demo.no_faults 3
           (Demo.put (Some "Bearer waiter.jwt") (Demo.status_body ""))
           (Demo.claims 7 "waiter") (JInt 7) "waiter"
           [("status", JStr "")] (JStr "") []).
  - apply (demo_carries "Bearer" "waiter.jwt");
      [reflexivity | reflexivity | discriminate | reflexivity].
  - reflexivity.
  - reflexivity.
  - simpl. tauto.
  - reflexivity.
  - reflexivity.
  - reflexivity.
  - reflexivity.
Defined.

(** * Further properties of the gate, the view and the start-up *)

(** Unfold the plumbing of the monad and the calls on the driver, and project
    the records built on the way. *)
Ltac run_step :=
  cbv beta iota delta
    [bind ret raise get_req set_req get_db set_db get_frame set_frame print
     getitem get_method get_user_role try_except try_except_finally
     get_db_connection cursor execute_update fetchone commit rollback release
     close_cursor close_connection driver execute_create execute_insert];
  cbn [req db frame stdout tables session result_set calls conn cur
       authorization get_json user_id user_role fst snd negb].

(** Split on the innermost test the run is waiting for. *)
Ltac run_case :=
  match goal with
  | |- context [match ?x with _ => _ end] =>
      lazymatch x with
      | context [match _ with _ => _ end] => fail
      | _ => destruct x eqn:?
      end
  end.

Ltac run_all := run_step; repeat (run_case; run_step).

Section Coverage.

Variable environ : string -> option string.
Variable jwt_decode : string -> string -> list string -> jwt_exception + dict.
Variable faults : db_op -> option exn.

Local Abbreviation gate := (token_required environ jwt_decode).
Local Abbreviation view := (update_table_status_view faults).
Local Abbreviation endpoint := (update_table_status environ jwt_decode faults).
Local Abbreviation carries := (presents environ jwt_decode).

(** ** The gate *)

(** Either the gate hands over to the view with two claims attached, or it
    ends the request with one of its own outcomes, whatever the view is, and
    has touched neither the store nor the output. *)
Lemma gate_cases {A} (a : A) (w : world) :
  (exists uid role, forall f : A -> M response,
      gate f a w = f a (attach uid role w)) \/
  (exists out w', (forall f : A -> M response, gate f a w = (out, w')) /\
      In out gate_rejections /\
      db w' = db w /\ stdout w' = stdout w /\ frame w' = frame w /\
      get_json (req w') = get_json (req w)).
Proof.
  destruct (authorization (req w)) as [h|] eqn:Eh.
  2:{ right. exists (inr token_missing), w.
      split; [intros f; apply gate_no_header; assumption|].
      simpl. tauto. }
  destruct (nth_error (split_space h) 1) as [tok|] eqn:Et.
  2:{ right. exists (inl IndexError), w. split.
      - intros f. unfold token_required, decorated, read_token. run_step.
        rewrite Eh, Et. reflexivity.
      - simpl. tauto. }
  destruct (String.eqb_spec tok "") as [->|Hne].
  { right. exists (inr token_missing), w.
    split; [intros f; apply (gate_empty_token _ _ f a w h); assumption|].
    simpl. tauto. }
  destruct (jwt_decode tok (SECRET_KEY environ) ["HS256"]) as [e|payload] eqn:Ed.
  { right. eexists. exists w.
    split; [intros f; apply (gate_rejects _ _ f a w h tok e); assumption|].
    destruct e; simpl; tauto. }
  assert (Hc : carries w payload) by (exists h, tok; auto).
  destruct (lookup "user_id" payload) as [uid|] eqn:Eu.
  2:{ right. exists (inl (KeyError "user_id")), w. split.
      - intros f. unfold token_required, decorated, read_token, verify_token.
        run_step. rewrite Eh, Et. run_step.
        rewrite (token_truthy_nonempty _ Hne). run_step.
        rewrite Ed. run_step. rewrite Eu. reflexivity.
      - simpl. tauto. }
  destruct (lookup "role" payload) as [role|] eqn:Er.
  - left. exists uid, role. intros f.
    apply (gate_accepts _ _ f a w payload); assumption.
  - right. exists (inl (KeyError "role")).
    exists (mkWorld (mkRequest (authorization (req w)) (get_json (req w))
                               (Some uid) (user_role (req w)))
                    (db w) (frame w) (stdout w)).
    split.
    + intros f. unfold token_required, decorated, read_token, verify_token.
      run_step. rewrite Eh, Et. run_step.
      rewrite (token_truthy_nonempty _ Hne). run_step.
      rewrite Ed. run_step. rewrite Eu. run_step. rewrite Er.
      rewrite <- Eh. reflexivity.
    + simpl. tauto.
Qed.

(** ** The statement *)

Lemma sql_returning_head (s : string) (n : Z) (v : list row) r l :
  sql_returning n (sql_update_status s n v) = r :: l ->
  r = mkRow n (Some s) /\ In r (sql_update_status s n v).
Proof.
  intros H.
  assert (Hin : In r (sql_returning n (sql_update_status s n v)))
    by (rewrite H; left; reflexivity).
  unfold sql_returning in Hin. apply filter_In in Hin.
  destruct Hin as [Hin Hn]. apply Z.eqb_eq in Hn.
  split; [|assumption].
  pose proof (sql_update_status_sets s n v r Hin Hn) as Hs.
  destruct r as [k st]. simpl in *. subst. reflexivity.
Qed.

Lemma sql_returning_nil (s : string) (n : Z) (v : list row) :
  sql_returning n (sql_update_status s n v) = [] ->
  sql_update_status s n v = v.
Proof.
  intros H. apply sql_returning_miss. intros r Hr Hn.
  destruct (sql_returning_hit s n v) as [rest Hrest]; [eauto|].
  rewrite H in Hrest. discriminate.
Qed.


(** ** Every run of the view *)

Ltac status_allowed :=
  match goal with
  | H : negb (py_in (JStr ?s) allowed_statuses) = false
    |- In ?s allowed_statuses =>
      apply negb_false_iff in H; apply py_in_In in H;
      destruct H as [? [E ?]]; injection E as ->; assumption
  end.

(** The rows after a run are the rows before, or those rows with one allowed
    status written into the rows numbered [n]. *)
Lemma view_tables_cases (n : Z) (w : world) :
  tables (db (snd (view n w))) = tables (db w) \/
  exists s, In s allowed_statuses /\
    tables (db (snd (view n w))) = sql_update_status s n (tables (db w)).
Proof.
  unfold update_table_status_view. run_all;
    first [ left; reflexivity
          | right; eexists; split; [|reflexivity]; status_allowed ].
Qed.

Ltac one_of_list := repeat (first [left; reflexivity | right]).

(** What the view answers, and what has then become of the rows: a fixed body
    and the rows as before, or the success body for an allowed status and the
    rows with that status committed. *)
Lemma view_response_cases (n : Z) (w : world) resp :
  fst (view n w) = inr resp ->
  (In resp (fixed_responses n) /\
   tables (db (snd (view n w))) = tables (db w)) \/
  (exists s, In s allowed_statuses /\
     resp = updated n (JStr s) (mkRow n (Some s)) /\
     tables (db (snd (view n w))) = sql_update_status s n (tables (db w)) /\
     In (mkRow n (Some s)) (tables (db (snd (view n w)))) /\
     In OpCommit (calls (db (snd (view n w))))).
Proof.
  unfold update_table_status_view. run_all; intros H; try discriminate H;
    injection H as <-;
    try (left; split; [one_of_list | reflexivity]; fail).
  all: try (left; split; [one_of_list|];
            match goal with
            | E : sql_returning _ _ = [] |- _ =>
                exact (sql_returning_nil _ _ _ E)
            end).
  all: right;
    match goal with
    | E : sql_returning ?n (sql_update_status ?s ?n ?v) = ?r :: _ |- _ =>
        destruct (sql_returning_head _ _ _ _ _ E) as [-> Hin];
        exists s; repeat split;
        [ status_allowed | exact Hin
        | rewrite !in_app_iff; simpl; tauto ]
    end.
Qed.


(** The driver is called only for a role and a status that passed the two
    membership tests. *)
Lemma view_calls_validated (n : Z) (w : world) :
  calls (db (snd (view n w))) <> calls (db w) ->
  exists role items v,
    user_role (req w) = Some role /\ py_in role allowed_roles = true /\
    get_json (req w) = JObj items /\ lookup "status" items = Some v /\
    py_in v allowed_statuses = true.
Proof.
  unfold update_table_status_view. run_all; intros H;
    try (exfalso; apply H; reflexivity);
    try match goal with
        | F : negb (truthy JNull) = false |- _ => discriminate F
        end;
    do 3 eexists; repeat split; try eassumption; try reflexivity;
    apply negb_false_iff; assumption.
Qed.

(** When the two [close] do not fail, no session outlives the view. *)
Lemma view_closes (n : Z) (w : world) :
  session (db w) = None ->
  faults OpCloseCursor = None ->
  faults OpCloseConnection = None ->
  session (db (snd (view n w))) = None.
Proof.
  intros Hs Hcc Hcn. unfold update_table_status_view. run_step.
  rewrite Hcc, Hcn. run_all; first [assumption | reflexivity].
Qed.

(** ** Every run of the endpoint *)

Lemma endpoint_cases (n : Z) (w : world) :
  (exists uid role, endpoint n w = view n (attach uid role w)) \/
  (exists out w', endpoint n w = (out, w') /\
      In out gate_rejections /\
      db w' = db w /\ stdout w' = stdout w /\ frame w' = frame w /\
      get_json (req w') = get_json (req w)).
Proof.
  unfold update_table_status.
  destruct (gate_cases (A := Z) n w) as [(uid & role & H)|(out & w' & H & R)].
  - left. exists uid, role. apply H.
  - right. exists out, w'. split; [apply H | exact R].
Qed.

Lemma rejection_is_fixed (n : Z) resp :
  In (inr resp) gate_rejections -> In resp (fixed_responses n).
Proof.
  unfold gate_rejections. simpl.
  intros [H|[H|[H|[H|[H|[H|[]]]]]]]; try discriminate H;
    injection H as <-; tauto.
Qed.

Lemma endpoint_response_cases (n : Z) (w : world) resp :
  fst (endpoint n w) = inr resp ->
  (In resp (fixed_responses n) /\
   tables (db (snd (endpoint n w))) = tables (db w)) \/
  (exists s, In s allowed_statuses /\
     resp = updated n (JStr s) (mkRow n (Some s)) /\
     tables (db (snd (endpoint n w))) = sql_update_status s n (tables (db w)) /\
     In (mkRow n (Some s)) (tables (db (snd (endpoint n w)))) /\
     In OpCommit (calls (db (snd (endpoint n w))))).
Proof.
  destruct (endpoint_cases n w) as [(uid & role & ->)|(out & w' & -> & R)].
  - apply (view_response_cases n (attach uid role w)).
  - simpl. intros ->. destruct R as (Hin & Hdb & _). left.
    split; [apply rejection_is_fixed; assumption | rewrite Hdb; reflexivity].
Qed.

Lemma fixed_response_code (n : Z) body :
  In (body, 200%Z) (fixed_responses n) -> False.
Proof.
  unfold fixed_responses. simpl.
  intros [H|[H|[H|[H|[H|[H|[H|[H|[H|[]]]]]]]]]]; discriminate H.
Qed.

Lemma endpoint_tables_cases (n : Z) (w : world) :
  tables (db (snd (endpoint n w))) = tables (db w) \/
  exists s, In s allowed_statuses /\
    tables (db (snd (endpoint n w))) = sql_update_status s n (tables (db w)).
Proof.
  destruct (endpoint_cases n w) as [(uid & role & ->)|(out & w' & -> & R)].
  - apply (view_tables_cases n (attach uid role w)).
  - left. simpl. destruct R as (_ & -> & _). reflexivity.
Qed.

Lemma sql_update_status_allowed (s : string) (n : Z) (v : list row) :
  In s allowed_statuses -> statuses_allowed v ->
  statuses_allowed (sql_update_status s n v).
Proof.
  intros Hs Hv r t Hr Ht. unfold sql_update_status in Hr.
  apply in_map_iff in Hr. destruct Hr as [x [Hx Hin]].
  destruct (table_number x =? n)%Z; subst r; simpl in Ht.
  - injection Ht as <-. assumption.
  - apply (Hv x t); assumption.
Qed.


(** X2.  A token that verifies but lacks the [user_id] or the [role] claim is
    not answered 401: the subscript raises [KeyError], which no clause of the
    gate catches; the view does not run and the store is not reached. *)
Theorem token_required_missing_claim {A} (a : A) (w : world) payload :
  carries w payload ->
  lookup "user_id" payload = None \/ lookup "role" payload = None ->
  exists key w',
    In key ["user_id"; "role"] /\
    (forall f : A -> M response, gate f a w = (inl (KeyError key), w')) /\
    db w' = db w /\ stdout w' = stdout w.
Proof.
  intros (h & tok & Eh & Et & Hne & Ed) Hmiss.
  destruct (lookup "user_id" payload) as [uid|] eqn:Eu.
  - destruct Hmiss as [Hmiss|Er]; [discriminate Hmiss|].
    exists "role".
    exists (mkWorld (mkRequest (authorization (req w)) (get_json (req w))
                               (Some uid) (user_role (req w)))
                    (db w) (frame w) (stdout w)).
    split; [simpl; tauto|]. split; [|split; reflexivity].
    intros f. unfold token_required, decorated, read_token, verify_token.
    run_step. rewrite Eh, Et. run_step.
    rewrite (token_truthy_nonempty _ Hne). run_step.
    rewrite Ed. run_step. rewrite Eu. run_step. rewrite Er.
    rewrite <- Eh. reflexivity.
  - exists "user_id", w. split; [simpl; tauto|]. split; [|split; reflexivity].
    intros f. unfold token_required, decorated, read_token, verify_token.
    run_step. rewrite Eh, Et. run_step.
    rewrite (token_truthy_nonempty _ Hne). run_step.
    rewrite Ed. run_step. rewrite Eu. reflexivity.
Qed.

(** X3.  When nothing, or a further space, follows the space after the scheme
    word, the second part of the split header is empty and the answer is 401
    "Token is missing!", whatever comes after: a token behind two spaces is
    not read. *)
Theorem token_required_empty_second_part
    {A} (f : A -> M response) (a : A) (w : world) scheme tail :
  has_space scheme = false ->
  authorization (req w) = Some (scheme ++ " " ++ tail)%string ->
  tail = "" \/ (exists t, tail = (" " ++ t)%string) ->
  gate f a w = (inr token_missing, w).
Proof.
  intros Hs Hh Ht.
  apply (gate_empty_token _ _ f a w (scheme ++ " " ++ tail)%string Hh).
  rewrite (split_space_scheme _ _ Hs).
  destruct Ht as [->|[t ->]]; reflexivity.
Qed.

(** X4.  An allowed caller whose JSON body is not an object (null, a list, a
    string, a number, a boolean) gets no 400: [data.get] raises
    [AttributeError] outside the [try], before the store is reached. *)
Theorem update_table_status_body_not_object
    (n : Z) (w : world) payload uid role :
  carries w payload ->
  lookup "user_id" payload = Some uid ->
  lookup "role" payload = Some (JStr role) ->
  In role allowed_roles ->
  (forall items, get_json (req w) <> JObj items) ->
  exists w',
    endpoint n w = (inl (AttributeError "get"), w') /\
    db w' = db w /\ stdout w' = stdout w.
Proof.
  intros Hc Hu Hr Hrole Hb.
  unfold update_table_status.
  rewrite (gate_accepts environ jwt_decode _ _ _ _ _ _ Hc Hu Hr).
  exists (attach uid (JStr role) w). split; [|split; reflexivity].
  unfold update_table_status_view, attach. run_step.
  rewrite (allowed_role_in _ Hrole). run_step.
  destruct (get_json (req w)) eqn:E; try reflexivity.
  exfalso. apply (Hb items). reflexivity.
Qed.


(** X8.  A 200 answer is never given for nothing: the status it reports is
    one of the four, the commit was issued, and the committed rows are the
    former rows with that status in the rows numbered [n], one of which
    exists. *)
Theorem update_table_status_success_is_committed
    (n : Z) (w w' : world) body :
  endpoint n w = (inr (body, 200%Z), w') ->
  exists s,
    In s allowed_statuses /\
    body = jsonify [("message",
                     JStr ("Table " ++ str_of_int n
                           ++ " status updated to " ++ s));
                    ("table_number", JInt n); ("status", JStr s)] /\
    tables (db w') = sql_update_status s n (tables (db w)) /\
    In (mkRow n (Some s)) (tables (db w')) /\
    In OpCommit (calls (db w')).
Proof.
  intros H.
  destruct (endpoint_response_cases n w (body, 200%Z)) as [[Hin _]|Hok].
  - rewrite H. reflexivity.
  - exfalso. exact (fixed_response_code n body Hin).
  - rewrite H in Hok. simpl in Hok.
    destruct Hok as (s & Hs & E & Ht & Hin & Hc).
    exists s. repeat split; try assumption.
    unfold updated in E. injection E as ->. reflexivity.
Qed.



(** ** Failures of the store *)

Lemma valid_status_tests (s : string) :
  In s allowed_statuses ->
  py_in (JStr s) allowed_statuses = true /\ truthy (JStr s) = true.
Proof.
  intros H. split; [apply py_in_In; eauto|].
  destruct s; [|reflexivity]. simpl in H. intuition discriminate.
Qed.

(** A failure that is not a [psycopg2.Error], from the connection to the
    commit: answered with the other fixed body, without any [rollback]. *)
Lemma view_unexpected (n : Z) (w : world) role items s :
  user_role (req w) = Some role ->
  py_in role allowed_roles = true ->
  get_json (req w) = JObj items ->
  lookup "status" items = Some (JStr s) ->
  In s allowed_statuses ->
  faults OpCloseCursor = None ->
  faults OpCloseConnection = None ->
  (forall op e, faults op = Some e -> is_psycopg2_error e = false) ->
  (exists op, In op [OpConnect; OpCursor; OpExecute; OpFetchone; OpCommit] /\
              faults op <> None) ->
  exists w',
    view n w = (inr unexpected_error, w') /\
    tables (db w') = tables (db w) /\
    exists added, issued w w' added /\ ~ In OpRollback added.
Proof.
  intros H1 H2 H3 H4 H5 Hcc Hcn Hnp Hex.
  destruct (valid_status_tests s H5) as [Hin Ht].
  unfold update_table_status_view. run_step.
  rewrite H1. run_step. rewrite H2. run_step. rewrite H3. run_step.
  rewrite H4, Ht. run_step. rewrite Hin. run_step. rewrite Hcc, Hcn.
  run_all;
    try match goal with
        | F : faults ?op = Some ?e, T : is_psycopg2_error ?e = true |- _ =>
            rewrite (Hnp _ _ F) in T; discriminate T
        end;
    try (exfalso; destruct Hex as [op [Hop Hf]]; simpl in Hop;
         destruct Hop as [<-|[<-|[<-|[<-|[<-|[]]]]]]; congruence);
    (eexists; split; [reflexivity|]; split; [reflexivity|];
     unfold issued; cbn [db calls];
     eexists; split; [repeat rewrite <- app_assoc; reflexivity|];
     simpl; intuition discriminate).
Qed.

Lemma valid_request_view (n : Z) (w : world) s :
  valid_request environ jwt_decode (req w) s ->
  exists uid role items,
    endpoint n w = view n (attach uid (JStr role) w) /\
    py_in (JStr role) allowed_roles = true /\
    get_json (req w) = JObj items /\
    lookup "status" items = Some (JStr s) /\
    In s allowed_statuses.
Proof.
  intros (h & tok & payload & uid & role & items &
          Eh & Et & Hne & Ed & Hu & Hr & Hrole & Hb & Hs & Hin).
  exists uid, role, items. repeat split; try assumption.
  - unfold update_table_status.
    apply (gate_accepts environ jwt_decode _ _ _ payload); try assumption.
    exists h, tok. auto.
  - apply allowed_role_in. assumption.
Qed.


(** X6.  A failure that is not a [psycopg2.Error], anywhere from the
    connection to the commit, is answered with the "unexpected error" 500
    body; no [rollback] is issued, and the rows are as before. *)
Theorem update_table_status_unexpected_failure (n : Z) (w : world) s :
  valid_request environ jwt_decode (req w) s ->
  faults OpCloseCursor = None ->
  faults OpCloseConnection = None ->
  (forall op e, faults op = Some e -> is_psycopg2_error e = false) ->
  (exists op, In op [OpConnect; OpCursor; OpExecute; OpFetchone; OpCommit] /\
              faults op <> None) ->
  exists w',
    endpoint n w =
      (inr (jsonify [("error", JStr "An unexpected error occurred.")],
            500%Z), w') /\
    tables (db w') = tables (db w) /\
    exists added, issued w w' added /\ ~ In OpRollback added.
Proof.
  intros Hv Hcc Hcn Hnp Hex.
  destruct (valid_request_view n w s Hv)
    as (uid & role & items & -> & Hrole & Hb & Hs & Hin).
  apply (view_unexpected n (attach uid (JStr role) w) (JStr role) items s);
    try assumption; reflexivity.
Qed.

(** X11.  The driver is called only on behalf of a request that passed the
    gate with an allowed role and carries an allowed status: all earlier
    rejections happen with the store untouched. *)
Theorem update_table_status_store_after_validation (n : Z) (w : world) :
  calls (db (snd (endpoint n w))) <> calls (db w) ->
  exists uid role items s,
    endpoint n w = view n (attach uid (JStr role) w) /\
    In role allowed_roles /\
    get_json (req w) = JObj items /\
    lookup "status" items = Some (JStr s) /\
    In s allowed_statuses.
Proof.
  destruct (endpoint_cases n w) as [(uid & role & E)|(out & w' & E & R)];
    rewrite E.
  - intros H.
    destruct (view_calls_validated n (attach uid role w) H)
      as (role' & items & v & Hr & Hrole & Hb & Hs & Hv).
    simpl in Hr. injection Hr as <-.
    apply py_in_In in Hrole. destruct Hrole as (r & -> & Hrole).
    apply py_in_In in Hv. destruct Hv as (s & -> & Hv).
    exists uid, r, items, s. repeat split; assumption.
  - simpl. destruct R as (_ & -> & _). intros H. exfalso. apply H. reflexivity.
Qed.

(** X12.  When no session is open before the request and the two [close] do
    not fail, none is open after it, whichever way the request ends. *)
Theorem update_table_status_closes_session (n : Z) (w : world) :
  session (db w) = None ->
  faults OpCloseCursor = None ->
  faults OpCloseConnection = None ->
  session (db (snd (endpoint n w))) = None.
Proof.
  intros Hs Hcc Hcn.
  destruct (endpoint_cases n w) as [(uid & role & ->)|(out & w' & -> & R)].
  - apply (view_closes n (attach uid role w)); assumption.
  - simpl. destruct R as (_ & -> & _). assumption.
Qed.

(** X13.  If every stored status is one of the four (or [NULL]) before a
    request, it is so after it: the endpoint never commits another value. *)
Theorem update_table_status_keeps_statuses_allowed (n : Z) (w : world) :
  statuses_allowed (tables (db w)) ->
  statuses_allowed (tables (db (snd (endpoint n w)))).
Proof.
  intros H.
  destruct (endpoint_tables_cases n w) as [->|(s & Hs & ->)];
    [assumption | apply sql_update_status_allowed; assumption].
Qed.


(** ** Successive requests *)

Lemma sql_update_status_overwrite (s1 s2 : string) (n : Z) (v : list row) :
  sql_update_status s2 n (sql_update_status s1 n v) = sql_update_status s2 n v.
Proof.
  unfold sql_update_status. rewrite map_map. apply map_ext. intros r.
  destruct (table_number r =? n)%Z eqn:E; simpl; rewrite E; reflexivity.
Qed.

Lemma sql_update_status_commute (s1 s2 : string) (n m : Z) (v : list row) :
  n <> m ->
  sql_update_status s1 n (sql_update_status s2 m v) =
  sql_update_status s2 m (sql_update_status s1 n v).
Proof.
  intros Hnm. unfold sql_update_status. rewrite !map_map. apply map_ext.
  intros r.
  destruct (table_number r =? n)%Z eqn:En;
    destruct (table_number r =? m)%Z eqn:Em; simpl;
    rewrite ?En, ?Em; try reflexivity.
  apply Z.eqb_eq in En, Em. congruence.
Qed.

(** A valid request on a store of which no call fails: the answer comes from
    the first returned row, and the statement is committed. *)
Lemma endpoint_commits (n : Z) (w : world) s :
  valid_request environ jwt_decode (req w) s ->
  healthy faults ->
  fst (endpoint n w) =
    inr (match sql_returning n (sql_update_status s n (tables (db w))) with
         | t :: _ => updated n (JStr s) t
         | [] => not_found n
         end) /\
  tables (db (snd (endpoint n w))) = sql_update_status s n (tables (db w)).
Proof.
  intros Hv Hh.
  destruct (valid_request_view n w s Hv)
    as (uid & role & items & -> & Hrole & Hb & Hs & Hin).
  rewrite (view_transaction faults n (attach uid (JStr role) w) (JStr role)
             items s); try assumption; try reflexivity.
  split; reflexivity.
Qed.

(** X15.  Two valid requests in a row on the same table: the rows end as if
    only the second had been made, and repeating a request changes nothing
    more. *)
Theorem update_table_status_last_write_wins
    (n : Z) (w : world) (r1 r2 : request) s1 s2 :
  valid_request environ jwt_decode r1 s1 ->
  valid_request environ jwt_decode r2 s2 ->
  healthy faults ->
  tables (db (snd (endpoint n (arrive r2 (snd (endpoint n (arrive r1 w)))))))
    = tables (db (snd (endpoint n (arrive r2 w)))) /\
  (s1 = s2 ->
   tables (db (snd (endpoint n (arrive r2 (snd (endpoint n (arrive r1 w)))))))
     = tables (db (snd (endpoint n (arrive r1 w))))).
Proof.
  intros H1 H2 Hh.
  destruct (endpoint_commits n (arrive r1 w) s1 H1 Hh) as [_ E1].
  destruct (endpoint_commits n (arrive r2 w) s2 H2 Hh) as [_ E2].
  destruct (endpoint_commits n
              (arrive r2 (snd (endpoint n (arrive r1 w)))) s2 H2 Hh)
    as [_ E12].
  rewrite E12, E2. cbn [arrive db]. rewrite E1. cbn [arrive db].
  rewrite sql_update_status_overwrite. split; [reflexivity|].
  intros ->. reflexivity.
Qed.

(** X16.  Valid requests on two different tables commute: in either order the
    rows end the same. *)
Theorem update_table_status_tables_commute
    (n m : Z) (w : world) (r1 r2 : request) s1 s2 :
  n <> m ->
  valid_request environ jwt_decode r1 s1 ->
  valid_request environ jwt_decode r2 s2 ->
  healthy faults ->
  tables (db (snd (endpoint m (arrive r2 (snd (endpoint n (arrive r1 w)))))))
    = tables (db (snd (endpoint n (arrive r1
                                     (snd (endpoint m (arrive r2 w))))))).
Proof.
  intros Hnm H1 H2 Hh.
  destruct (endpoint_commits n (arrive r1 w) s1 H1 Hh) as [_ E1].
  destruct (endpoint_commits m (arrive r2 w) s2 H2 Hh) as [_ E2].
  destruct (endpoint_commits m
              (arrive r2 (snd (endpoint n (arrive r1 w)))) s2 H2 Hh)
    as [_ E12].
  destruct (endpoint_commits n
              (arrive r1 (snd (endpoint m (arrive r2 w)))) s1 H1 Hh)
    as [_ E21].
  rewrite E12, E21. cbn [arrive db]. rewrite E1, E2. cbn [arrive db].
  symmetry. apply sql_update_status_commute. assumption.
Qed.

(** ** The start-up *)

Lemma py_range_1_6 : py_range 1 6 = [1; 2; 3; 4; 5]%Z.
Proof. reflexivity. Qed.

Lemma sql_insert_table_incl (n : Z) (s : string) (v : list row) r :
  In r v -> In r (sql_insert_table n s v).
Proof.
  intros H. unfold sql_insert_table.
  destruct (existsb _ v); [assumption|]. apply in_or_app. left. assumption.
Qed.

Lemma sql_insert_table_has (n : Z) (s : string) (v : list row) :
  exists r, In r (sql_insert_table n s v) /\ table_number r = n.
Proof.
  unfold sql_insert_table.
  destruct (existsb (fun r => (table_number r =? n)%Z) v) eqn:E.
  - apply existsb_exists in E. destruct E as [r [Hr Hn]].
    exists r. split; [assumption|]. apply Z.eqb_eq. assumption.
  - exists (mkRow n (Some s)). split; [|reflexivity].
    apply in_or_app. right. left. reflexivity.
Qed.

(** The insert does nothing where the number is taken. *)
Lemma sql_insert_table_taken (n : Z) (s : string) (v : list row) :
  (exists r, In r v /\ table_number r = n) -> sql_insert_table n s v = v.
Proof.
  intros [r [Hr Hn]]. unfold sql_insert_table.
  replace (existsb (fun r => (table_number r =? n)%Z) v) with true;
    [reflexivity|].
  symmetry. apply existsb_exists. exists r. split; [assumption|].
  apply Z.eqb_eq. assumption.
Qed.


(** What the loop of inserts makes of a view: the former rows first, then a
    row "available" for each listed number that no former row carries. *)
Lemma inserts_append (l : list Z) (v : list row) :
  exists added,
    fold_left (fun v i => sql_insert_table i "available" v) l v = v ++ added /\
    forall r, In r added ->
      status r = Some "available" /\ In (table_number r) l /\
      forall r', In r' v -> table_number r' <> table_number r.
Proof.
  revert v. induction l as [|i l IH]; intros v; simpl.
  - exists []. rewrite app_nil_r. split; [reflexivity|]. intros r [].
  - destruct (IH (sql_insert_table i "available" v)) as [added [E Hadd]].
    unfold sql_insert_table in *.
    destruct (existsb (fun r => (table_number r =? i)%Z) v) eqn:Ex.
    + exists added. split; [assumption|].
      intros r Hr. destruct (Hadd r Hr) as (Hs & Hl & Hn). auto.
    + exists (mkRow i (Some "available") :: added).
      rewrite E, <- app_assoc. split; [reflexivity|].
      intros r [<-|Hr].
      * simpl. repeat split; [left; reflexivity|].
        intros r' Hr' Heq.
        assert (existsb (fun r => (table_number r =? i)%Z) v = true).
        { apply existsb_exists. exists r'. split; [assumption|].
          apply Z.eqb_eq. assumption. }
        congruence.
      * destruct (Hadd r Hr) as (Hs & Hl & Hn).
        repeat split; [assumption | right; assumption |].
        intros r' Hr'. apply Hn. apply in_or_app. left. assumption.
Qed.

Lemma inserts_incl (l : list Z) (v : list row) r :
  In r v ->
  In r (fold_left (fun v i => sql_insert_table i "available" v) l v).
Proof.
  revert v. induction l as [|i l IH]; intros v H; simpl; [assumption|].
  apply IH. apply sql_insert_table_incl. assumption.
Qed.

Lemma inserts_have (l : list Z) (v : list row) i :
  In i l ->
  exists r,
    In r (fold_left (fun v i => sql_insert_table i "available" v) l v) /\
    table_number r = i.
Proof.
  revert v. induction l as [|j l IH]; intros v; simpl; [intros []|].
  intros [->|Hi]; [|apply IH; assumption].
  destruct (sql_insert_table_has i "available" v) as [r [Hr Hn]].
  exists r. split; [apply inserts_incl; assumption | assumption].
Qed.

Lemma inserts_taken (l : list Z) (v : list row) :
  (forall i, In i l -> exists r, In r v /\ table_number r = i) ->
  fold_left (fun v i => sql_insert_table i "available" v) l v = v.
Proof.
  revert v. induction l as [|j l IH]; intros v H; simpl; [reflexivity|].
  rewrite sql_insert_table_taken; [|apply H; left; reflexivity].
  apply IH. intros i Hi. apply H. right. assumption.
Qed.


Lemma seed_idempotent (v : list row) : seed (seed v) = seed v.
Proof.
  unfold seed at 1. apply inserts_taken. intros i Hi.
  apply inserts_have. assumption.
Qed.

Lemma in_range_1_6 (i : Z) : In i (py_range 1 6) <-> (1 <= i <= 5)%Z.
Proof. rewrite py_range_1_6. simpl. lia. Qed.

(** The start-up on a store of which no call fails. *)
Lemma initialize_healthy (w : world) :
  healthy faults ->
  initialize faults w =
    (inr tt,
     mkWorld (req w)
       (mkDatabase (seed (tables (db w))) None []
          (calls (db w) ++ [OpConnect; OpCursor] ++ repeat OpExecute 11
                        ++ [OpCommit; OpCloseCursor; OpCloseConnection]))
       (mkLocals true true)
       (stdout w ++ ["Database tables checked/created successfully."])).
Proof.
  intros Hh. unfold initialize, seed. rewrite py_range_1_6.
  cbn [for_each fold_left]. run_step. repeat (rewrite !Hh; run_step).
  repeat rewrite <- app_assoc. reflexivity.
Qed.


(** X17.  On a store of which no call fails, the start-up keeps every row
    there is, in place and with its status, and appends a row "available"
    for each of the numbers 1 to 5 that no row carries; afterwards each of
    the five numbers has a row. *)
Theorem initialize_seeds (w : world) :
  healthy faults ->
  exists w' added,
    initialize faults w = (inr tt, w') /\
    tables (db w') = tables (db w) ++ added /\
    (forall r, In r added ->
       status r = Some "available" /\ (1 <= table_number r <= 5)%Z /\
       forall r', In r' (tables (db w)) -> table_number r' <> table_number r) /\
    (forall i, (1 <= i <= 5)%Z ->
       exists r, In r (tables (db w')) /\ table_number r = i).
Proof.
  intros Hh. rewrite (initialize_healthy w Hh).
  destruct (inserts_append (py_range 1 6) (tables (db w))) as [added [E Hadd]].
  eexists. exists added. split; [reflexivity|]. cbn [db tables].
  split; [exact E|]. split.
  - intros r Hr. destruct (Hadd r Hr) as (Hs & Hl & Hn).
    apply in_range_1_6 in Hl. auto.
  - intros i Hi. apply inserts_have. apply in_range_1_6. assumption.
Qed.

(** X18.  Starting the program again changes no row: the second start-up
    finds the five numbers taken and leaves every status as it is. *)
Theorem initialize_idempotent (w : world) :
  healthy faults ->
  tables (db (snd (initialize faults (snd (initialize faults w))))) =
  tables (db (snd (initialize faults w))).
Proof.
  intros Hh. rewrite (initialize_healthy w Hh). cbn [snd].
  rewrite initialize_healthy by assumption. cbn [snd db tables].
  apply seed_idempotent.
Qed.



(** X21.  After a start-up on a store of which no call fails, a valid request
    for any of the tables 1 to 5 is answered 200, never 404, whatever rows
    the store held before. *)
Theorem initialize_then_update (w : world) (r : request) s k :
  healthy faults ->
  valid_request environ jwt_decode r s ->
  (1 <= k <= 5)%Z ->
  fst (endpoint k (arrive r (snd (initialize faults w)))) =
    inr (jsonify [("message",
                   JStr ("Table " ++ str_of_int k
                         ++ " status updated to " ++ s));
                  ("table_number", JInt k); ("status", JStr s)], 200%Z).
Proof.
  intros Hh Hv Hk.
  destruct (endpoint_commits k (arrive r (snd (initialize faults w))) s Hv Hh)
    as [-> _].
  rewrite (initialize_healthy w Hh). cbn [snd arrive db tables].
  destruct (sql_returning_hit s k (seed (tables (db w)))) as [rest ->];
    [|reflexivity].
  apply inserts_have. apply in_range_1_6. assumption.
Qed.

End Coverage.

(** ** The further properties on the concrete deployment *)

Lemma waiter_valid (s : string) :
  In s allowed_statuses ->
  valid_request Demo.environ Demo.jwt_decode (Cases.waiter s) s.
Proof.
  intros H.
  exists "Bearer waiter.jwt", "waiter.jwt", (Demo.claims 7 "waiter"), (JInt 7),
    "waiter", [("status", JStr s)].
  repeat split; try reflexivity; try assumption;
    [discriminate | simpl; tauto].
Qed.

Lemma admin_valid (s : string) :
  In s allowed_statuses ->
  valid_request Demo.environ Demo.jwt_decode (Cases.admin s) s.
Proof.
  intros H.
  exists "Bearer admin.jwt", "admin.jwt", (Demo.claims 1 "admin"), (JInt 1),
    "admin", [("status", JStr s)].
  repeat split; try reflexivity; try assumption;
    [discriminate | simpl; tauto].
Qed.

Lemma no_faults_healthy : healthy Demo.no_faults.
Proof. intros op. reflexivity. Qed.

(** A token with an id and no role. *)
Lemma token_required_missing_claim_witness :
  exists key w',
    In key ["user_id"; "role"] /\
    (forall f : Z -> M response,
        token_required Demo.environ Demo.jwt_decode f 3%Z
          (Demo.put (Some "Bearer anonymous.jwt") (Demo.status_body "occupied"))
        = (inl (KeyError key), w')) /\
    db w' = Demo.store /\ stdout w' = [].
Proof.
  apply (token_required_missing_claim Demo.environ Demo.jwt_decode 3%Z
           (Demo.put (Some "Bearer anonymous.jwt")
                     (Demo.status_body "occupied"))
           [("user_id", JInt 8)]).
  - apply (demo_carries "Bearer" "anonymous.jwt");
      [reflexivity | reflexivity | discriminate | reflexivity].
  - right. reflexivity.
Defined.

(** Two spaces between the scheme word and a good token. *)
Lemma token_required_empty_second_part_witness :
  token_required Demo.environ Demo.jwt_decode
    (update_table_status_view Demo.no_faults) 3%Z
    (Demo.put (Some "Bearer  waiter.jwt") (Demo.status_body "occupied")) =
  (inr token_missing,
   Demo.put (Some "Bearer  waiter.jwt") (Demo.status_body "occupied")).
Proof.
  apply (token_required_empty_second_part Demo.environ Demo.jwt_decode
           (update_table_status_view Demo.no_faults) 3%Z
           (Demo.put (Some "Bearer  waiter.jwt") (Demo.status_body "occupied"))
           "Bearer" " waiter.jwt").
  - reflexivity.
  - reflexivity.
  - right. exists "waiter.jwt". reflexivity.
Defined.

(** A list for a body. *)
Lemma update_table_status_body_not_object_witness :
  exists w',
    Demo.run (Demo.put (Some "Bearer waiter.jwt") (JArr [JStr "occupied"])) 3 =
      (inl (AttributeError "get"), w') /\
    db w' = Demo.store /\ stdout w' = [].
Proof.
  apply (update_table_status_body_not_object
           Demo.environ Demo.jwt_decode Demo.no_faults 3
           (Demo.put (Some "Bearer waiter.jwt") (JArr [JStr "occupied"]))
           (Demo.claims 7 "waiter") (JInt 7) "waiter").
  - apply (demo_carries "Bearer" "waiter.jwt");
      [reflexivity | reflexivity | discriminate | reflexivity].
  - reflexivity.
  - reflexivity.
  - simpl. tauto.
  - intros items. discriminate.
Defined.


(** The statement fails with an exception of another kind. *)
Lemma update_table_status_unexpected_failure_witness :
  exists w',
    update_table_status Demo.environ Demo.jwt_decode Cases.out_of_memory 3
      (arrive (Cases.waiter "occupied") Cases.reopened) =
      (inr unexpected_error, w') /\
    tables (db w') = tables (db Cases.reopened) /\
    exists added,
      issued (arrive (Cases.waiter "occupied") Cases.reopened) w' added /\
      ~ In OpRollback added.
Proof.
  apply (update_table_status_unexpected_failure
           Demo.environ Demo.jwt_decode Cases.out_of_memory 3
           (arrive (Cases.waiter "occupied") Cases.reopened) "occupied").
  - apply waiter_valid. simpl. tauto.
  - reflexivity.
  - reflexivity.
  - intros op e. destruct op; simpl; intros H; try discriminate H.
    injection H as <-. reflexivity.
  - exists OpExecute. split; [simpl; tauto | discriminate].
Defined.


(** The 200 of a waiter's request on the reopened store. *)
Lemma update_table_status_success_is_committed_witness :
  exists s,
    In s allowed_statuses /\
    jsonify [("message", JStr "Table 3 status updated to cleaning");
             ("table_number", JInt 3); ("status", JStr "cleaning")] =
    jsonify [("message",
              JStr ("Table " ++ str_of_int 3 ++ " status updated to " ++ s));
             ("table_number", JInt 3); ("status", JStr s)] /\
    tables (db (snd (Demo.run (arrive (Cases.waiter "cleaning") Cases.reopened)
                              3))) =
      sql_update_status s 3 (tables (db Cases.reopened)) /\
    In (mkRow 3 (Some s))
       (tables (db (snd (Demo.run (arrive (Cases.waiter "cleaning")
                                          Cases.reopened) 3)))) /\
    In OpCommit
       (calls (db (snd (Demo.run (arrive (Cases.waiter "cleaning")
                                         Cases.reopened) 3)))).
Proof.
  apply (update_table_status_success_is_committed
           Demo.environ Demo.jwt_decode Demo.no_faults 3
           (arrive (Cases.waiter "cleaning") Cases.reopened)
           (snd (Demo.run (arrive (Cases.waiter "cleaning") Cases.reopened) 3))
           (jsonify [("message", JStr "Table 3 status updated to cleaning");
                     ("table_number", JInt 3); ("status", JStr "cleaning")])).
  vm_compute. reflexivity.
Defined.



(** The driver was called: the request was a waiter's, for "occupied". *)
Lemma update_table_status_store_after_validation_witness :
  exists uid role items s,
    Demo.run (arrive (Cases.waiter "occupied") Cases.reopened) 3 =
      update_table_status_view Demo.no_faults 3
        (attach uid (JStr role)
                (arrive (Cases.waiter "occupied") Cases.reopened)) /\
    In role allowed_roles /\
    get_json (req (arrive (Cases.waiter "occupied") Cases.reopened)) =
      JObj items /\
    lookup "status" items = Some (JStr s) /\
    In s allowed_statuses.
Proof.
  apply (update_table_status_store_after_validation
           Demo.environ Demo.jwt_decode Demo.no_faults 3
           (arrive (Cases.waiter "occupied") Cases.reopened)).
  vm_compute. discriminate.
Defined.

(** No session is left open by a request whose statement failed. *)
Lemma update_table_status_closes_session_witness :
  session (db (snd (update_table_status Demo.environ Demo.jwt_decode
                      Demo.failing_statement 3
                      (arrive (Cases.waiter "occupied") Cases.reopened)))) =
  None.
Proof.
  apply (update_table_status_closes_session
           Demo.environ Demo.jwt_decode Demo.failing_statement 3
           (arrive (Cases.waiter "occupied") Cases.reopened));
    reflexivity.
Defined.

(** The statuses of the reopened store stay among the four. *)
Lemma update_table_status_keeps_statuses_allowed_witness :
  statuses_allowed
    (tables (db (snd (Demo.run (arrive (Cases.waiter "cleaning")
                                       Cases.reopened) 3)))).
Proof.
  apply (update_table_status_keeps_statuses_allowed
           Demo.environ Demo.jwt_decode Demo.no_faults 3
           (arrive (Cases.waiter "cleaning") Cases.reopened)).
  intros r s Hr Hs. simpl in Hr.
  destruct Hr as [<-|[<-|[]]]; simpl in Hs; injection Hs as <-; simpl; tauto.
Defined.

(** "occupied" by a waiter, then "cleaning" by an admin, on table 3. *)
Lemma update_table_status_last_write_wins_witness :
  tables (db (snd (Demo.run
                     (arrive (Cases.admin "cleaning")
                        (snd (Demo.run (arrive (Cases.waiter "occupied")
                                               Cases.reopened) 3))) 3))) =
  tables (db (snd (Demo.run (arrive (Cases.admin "cleaning") Cases.reopened)
                            3))) /\
  ("occupied" = "cleaning" ->
   tables (db (snd (Demo.run
                      (arrive (Cases.admin "cleaning")
                         (snd (Demo.run (arrive (Cases.waiter "occupied")
                                                Cases.reopened) 3))) 3))) =
   tables (db (snd (Demo.run (arrive (Cases.waiter "occupied") Cases.reopened)
                             3)))).
Proof.
  apply (update_table_status_last_write_wins
           Demo.environ Demo.jwt_decode Demo.no_faults 3 Cases.reopened
           (Cases.waiter "occupied") (Cases.admin "cleaning")
           "occupied" "cleaning").
  - apply waiter_valid. simpl. tauto.
  - apply admin_valid. simpl. tauto.
  - exact no_faults_healthy.
Defined.

(** Table 3 by a waiter and table 9 by an admin, in both orders. *)
Lemma update_table_status_tables_commute_witness :
  tables (db (snd (Demo.run
                     (arrive (Cases.admin "cleaning")
                        (snd (Demo.run (arrive (Cases.waiter "available")
                                               Cases.reopened) 3))) 9))) =
  tables (db (snd (Demo.run
                     (arrive (Cases.waiter "available")
                        (snd (Demo.run (arrive (Cases.admin "cleaning")
                                               Cases.reopened) 9))) 3))).
Proof.
  apply (update_table_status_tables_commute
           Demo.environ Demo.jwt_decode Demo.no_faults 3 9 Cases.reopened
           (Cases.waiter "available") (Cases.admin "cleaning")
           "available" "cleaning").
  - discriminate.
  - apply waiter_valid. simpl. tauto.
  - apply admin_valid. simpl. tauto.
  - exact no_faults_healthy.
Defined.

(** The restart on the reopened store. *)
Lemma initialize_seeds_witness :
  exists w' added,
    initialize Demo.no_faults Cases.reopened = (inr tt, w') /\
    tables (db w') = tables (db Cases.reopened) ++ added /\
    (forall r, In r added ->
       status r = Some "available" /\ (1 <= table_number r <= 5)%Z /\
       forall r', In r' (tables (db Cases.reopened)) ->
                  table_number r' <> table_number r) /\
    (forall i, (1 <= i <= 5)%Z ->
       exists r, In r (tables (db w')) /\ table_number r = i).
Proof.
  apply (initialize_seeds Demo.no_faults Cases.reopened).
  exact no_faults_healthy.
Defined.

Lemma initialize_idempotent_witness :
  tables (db (snd (initialize Demo.no_faults
                     (snd (initialize Demo.no_faults Cases.reopened))))) =
  tables (db (snd (initialize Demo.no_faults Cases.reopened))).
Proof.
  apply (initialize_idempotent Demo.no_faults Cases.reopened).
  exact no_faults_healthy.
Defined.



(** Table 4, which the reopened store lacked before the restart. *)
Lemma initialize_then_update_witness :
  fst (Demo.run (arrive (Cases.waiter "reserved")
                        (snd (initialize Demo.no_faults Cases.reopened))) 4) =
  inr (jsonify [("message", JStr "Table 4 status updated to reserved");
                ("table_number", JInt 4); ("status", JStr "reserved")], 200%Z).
Proof.
  apply (initialize_then_update
           Demo.environ Demo.jwt_decode Demo.no_faults Cases.reopened
           (Cases.waiter "reserved") "reserved" 4).
  - exact no_faults_healthy.
  - apply waiter_valid. simpl. tauto.
  - lia.
Defined.
